(** * A shallow embedding of the document-processing pipeline of
      [ocr_app/processor.py], and the properties its specification states.

    Modelling conventions.
    - A Python [str] is a [string]: a sequence of code points below 256.
      On that range the regular-expression class [\d] is [0-9], the class
      [\s] is the table [isspace] below, and case-insensitive matching of an
      ASCII letter only identifies it with its other case.
    - A Python [bytes] is a [list Byte.byte].
    - A [dict] with string keys is a [gmap string _]; the value of
      [json.loads] is a [value].
    - The external engines (Pillow, PyMuPDF, PaddleOCR, OpenCV, the
      generation endpoint, the [json] codec, the database) are the fields of
      the class [Engines]; a call that can raise returns an [outcome].
    - [try]/[except] is written out: the handler is the branch taken on
      [Raises]. *)

From Stdlib Require Import ZArith QArith Ascii String List Lia.
From stdpp Require Import gmap strings list fin_maps sorting pretty.

Set Warnings "-register-all".
Local Open Scope Z_scope.

(* ===================================================================== *)
(** * Part I: definitions                                                 *)
(* ===================================================================== *)

Definition bytes := list Byte.byte.

(** ** Characters *)

Definition code (c : ascii) : Z := Z.of_nat (nat_of_ascii c).

Definition is_digit (c : ascii) : bool := (48 <=? code c) && (code c <=? 57).

Definition digit_val (c : ascii) : Z := code c - 48.

Definition in_range (lo hi : Z) (c : ascii) : bool :=
  is_digit c && (lo <=? digit_val c) && (digit_val c <=? hi).

(** [Py_UNICODE_ISSPACE] below code point 256. *)
Definition isspace (c : ascii) : bool :=
  let n := code c in
  ((9 <=? n) && (n <=? 13)) || ((28 <=? n) && (n <=? 32))
  || (n =? 133) || (n =? 160).

(** [str.lower] on one code point below 256. *)
Definition lower_char (c : ascii) : ascii :=
  let n := code c in
  if ((65 <=? n) && (n <=? 90))
     || ((192 <=? n) && (n <=? 222) && negb (n =? 215))
  then ascii_of_nat (Z.to_nat (n + 32)) else c.

Fixpoint lower (s : string) : string :=
  match s with
  | EmptyString => EmptyString
  | String c s' => String (lower_char c) (lower s')
  end.

Fixpoint startswith (p s : string) : bool :=
  match p, s with
  | EmptyString, _ => true
  | String a p', String b s' => Ascii.eqb a b && startswith p' s'
  | String _ _, EmptyString => false
  end.

(** [p in s] for two strings. *)
Fixpoint contains (p s : string) : bool :=
  startswith p s ||
  match s with
  | EmptyString => false
  | String _ s' => contains p s'
  end.

(** [s.endswith(p)]. *)
Fixpoint endswith (p s : string) : bool :=
  String.eqb p s ||
  match s with
  | EmptyString => false
  | String _ s' => endswith p s'
  end.

(** ** [datetime.strptime]

    [_strptime] turns the format into a regular expression ([TimeRE.pattern]),
    matches it case-insensitively at the start of the data with the
    backtracking matcher, fails when the match does not reach the end of the
    data, and builds a date from the groups.  The matcher is modelled by the
    list of all its matches in the order backtracking tries them: the match
    it reports is the head of that list. *)

Record fields := { fY : option Z; fm : option Z; fd : option Z }.

Definition no_fields : fields := {| fY := None; fm := None; fd := None |}.
Definition set_Y (f : fields) (y : Z) := {| fY := Some y; fm := fm f; fd := fd f |}.
Definition set_m (f : fields) (m : Z) := {| fY := fY f; fm := Some m; fd := fd f |}.
Definition set_d (f : fields) (d : Z) := {| fY := fY f; fm := fm f; fd := Some d |}.

(** One element of the compiled pattern. *)
Inductive item :=
  | Lit (c : ascii)      (* an ordinary character of the format *)
  | Spaces               (* a run of white space of the format: [\s+] *)
  | Dir (c : ascii).     (* a directive [%c] *)

(** [TimeRE.pattern]: runs of white space become [\s+], [%c] becomes the
    group of directive [c], every other character stands for itself. *)
Fixpoint pattern (fmt : string) : list item :=
  match fmt with
  | EmptyString => []
  | String c rest =>
      if isspace c then
        match pattern rest with
        | Spaces :: p => Spaces :: p
        | p => Spaces :: p
        end
      else if Ascii.eqb c "%" then
        match rest with
        | String d rest' => Dir d :: pattern rest'
        | EmptyString => [Lit c]
        end
      else Lit c :: pattern rest
  end.

(** [(?P<Y>\d\d\d\d)] *)
Definition re_Y (s : string) : list (Z * string) :=
  match s with
  | String a (String b (String c (String d rest))) =>
      if is_digit a && is_digit b && is_digit c && is_digit d
      then [(1000 * digit_val a + 100 * digit_val b + 10 * digit_val c + digit_val d, rest)]
      else []
  | _ => []
  end.

(** One alternative made of a fixed first character class and a second. *)
Definition two (p1 p2 : ascii -> bool) (s : string) : list (Z * string) :=
  match s with
  | String a (String b rest) =>
      if p1 a && p2 b then [(10 * digit_val a + digit_val b, rest)] else []
  | _ => []
  end.

Definition one (p : ascii -> bool) (s : string) : list (Z * string) :=
  match s with
  | String a rest => if p a then [(digit_val a, rest)] else []
  | _ => []
  end.

(** [(?P<m>1[0-2]|0[1-9]|[1-9])] *)
Definition re_m (s : string) : list (Z * string) :=
  two (in_range 1 1) (in_range 0 2) s
  ++ two (in_range 0 0) (in_range 1 9) s
  ++ one (in_range 1 9) s.

(** [(?P<d>3[0-1]|[1-2]\d|0[1-9]|[1-9]| [1-9])]; [int(" 7")] is [7]. *)
Definition re_d (s : string) : list (Z * string) :=
  two (in_range 3 3) (in_range 0 1) s
  ++ two (in_range 1 2) is_digit s
  ++ two (in_range 0 0) (in_range 1 9) s
  ++ one (in_range 1 9) s
  ++ match s with
     | String a rest => if Ascii.eqb a " " then one (in_range 1 9) rest else []
     | _ => []
     end.

(** Month names of the C locale, lower-cased as [LocaleTime] stores them. *)
Definition a_month : list string :=
  ["jan"; "feb"; "mar"; "apr"; "may"; "jun";
   "jul"; "aug"; "sep"; "oct"; "nov"; "dec"]%string.

Definition f_month : list string :=
  ["january"; "february"; "march"; "april"; "may"; "june"; "july";
   "august"; "september"; "october"; "november"; "december"]%string.

(** Case-insensitive match of a lower-case ASCII word at the start of [s]. *)
Fixpoint match_word (w s : string) : option string :=
  match w, s with
  | EmptyString, _ => Some s
  | String a w', String b s' =>
      if Ascii.eqb a (lower_char b) then match_word w' s' else None
  | String _ _, EmptyString => None
  end.

(** Position of [w] in [names], counted from 1 ([list.index] after the
    leading empty entry of [LocaleTime.a_month] and [f_month]). *)
Fixpoint month_index (names : list string) (w : string) (i : Z) : Z :=
  match names with
  | [] => i
  | n :: names' => if String.eqb n w then i else month_index names' w (i + 1)
  end.

(** [__seqToRE]: the names sorted by decreasing length (a stable sort, so a
    name stays before the later names of its length), as one alternation. *)
Fixpoint insert_by_len (w : string) (l : list string) : list string :=
  match l with
  | [] => [w]
  | x :: l' =>
      if (String.length x <=? String.length w)%nat then w :: l
      else x :: insert_by_len w l'
  end.

Definition by_len_desc (l : list string) : list string :=
  foldr insert_by_len [] l.

Definition re_names (names : list string) (s : string) : list (Z * string) :=
  flat_map (fun w => match match_word w s with
                     | Some rest => [(month_index names w 1, rest)]
                     | None => []
                     end)
           (by_len_desc names).

(** [\s+], greedy: the longest run first, then each shorter one. *)
Fixpoint re_spaces_from (s : string) : list string :=
  match s with
  | String c rest => if isspace c then re_spaces_from rest ++ [rest] else []
  | EmptyString => []
  end.

Definition re_item (it : item) (f : fields) (s : string) : list (fields * string) :=
  match it with
  | Lit c =>
      match s with
      | String a rest => if Ascii.eqb (lower_char a) (lower_char c) then [(f, rest)] else []
      | EmptyString => []
      end
  | Spaces => map (fun rest => (f, rest)) (re_spaces_from s)
  | Dir c =>
      if Ascii.eqb c "Y" then map (fun '(v, rest) => (set_Y f v, rest)) (re_Y s)
      else if Ascii.eqb c "m" then map (fun '(v, rest) => (set_m f v, rest)) (re_m s)
      else if Ascii.eqb c "d" then map (fun '(v, rest) => (set_d f v, rest)) (re_d s)
      else if Ascii.eqb c "b" then map (fun '(v, rest) => (set_m f v, rest)) (re_names a_month s)
      else if Ascii.eqb c "B" then map (fun '(v, rest) => (set_m f v, rest)) (re_names f_month s)
      else []   (* the other directives are not used by this program *)
  end.

Fixpoint re_match (p : list item) (f : fields) (s : string) : list (fields * string) :=
  match p with
  | [] => [(f, s)]
  | it :: p' => flat_map (fun '(f', rest) => re_match p' f' rest) (re_item it f s)
  end.

(** The calendar of [datetime.date]. *)
Definition is_leap (y : Z) : bool :=
  ((y mod 4 =? 0) && negb (y mod 100 =? 0)) || (y mod 400 =? 0).

Definition days_in_month (y m : Z) : Z :=
  if m =? 2 then (if is_leap y then 29 else 28)
  else if (m =? 4) || (m =? 6) || (m =? 9) || (m =? 11) then 30
  else 31.

Record datetime := { year : Z; month : Z; day : Z }.

(** The constructor of [datetime]: [None] stands for its [ValueError]. *)
Definition make_date (y m d : Z) : option datetime :=
  if (1 <=? y) && (y <=? 9999) && (1 <=? m) && (m <=? 12)
     && (1 <=? d) && (d <=? days_in_month y m)
  then Some {| year := y; month := m; day := d |}
  else None.

(** [datetime.strptime(data, fmt)]; [None] stands for [ValueError]. *)
Definition strptime (data fmt : string) : option datetime :=
  match re_match (pattern fmt) no_fields data with
  | [] => None                                   (* does not match format *)
  | (f, rest) :: _ =>
      match rest with
      | String _ _ => None                        (* unconverted data remains *)
      | EmptyString =>
          make_date (default 1900 (fY f)) (default 1 (fm f)) (default 1 (fd f))
      end
  end.

(** ** [datetime.strftime]

    [%Y] is the year in decimal; whether a year below 1000 is padded to four
    digits depends on the C library and the interpreter version, so both
    behaviours are kept ([pad]).  [%m] and [%d] are two digits.  Every other
    character of the format is copied. *)

Fixpoint zeros (n : nat) : string :=
  match n with
  | O => EmptyString
  | S n' => String "0" (zeros n')
  end.

(** [s.zfill(width)] for a string of digits: zeros on the left up to the
    width, nothing for a string that has it already. *)
Definition zfill (width : nat) (s : string) : string :=
  zeros (width - String.length s) +:+ s.

Definition fmt_year (pad : bool) (y : Z) : string :=
  if pad then zfill 4 (pretty y) else pretty y.

Fixpoint strftime (pad : bool) (dt : datetime) (fmt : string) : string :=
  match fmt with
  | EmptyString => EmptyString
  | String c rest =>
      if Ascii.eqb c "%" then
        match rest with
        | String d rest' =>
            (if Ascii.eqb d "Y" then fmt_year pad (year dt)
             else if Ascii.eqb d "m" then zfill 2 (pretty (month dt))
             else if Ascii.eqb d "d" then zfill 2 (pretty (day dt))
             else String c (String d EmptyString))
            +:+ strftime pad dt rest'
        | EmptyString => String c EmptyString
        end
      else String c (strftime pad dt rest)
  end.

(** ** JSON values *)

Inductive value :=
  | VNull
  | VBool (b : bool)
  | VInt (z : Z)
  | VFloat (q : Q)
  | VStr (s : string)
  | VList (l : list value)
  | VDict (d : gmap string value).

(** [type(v).__name__] *)
Definition type_name (v : value) : string :=
  match v with
  | VNull => "NoneType"
  | VBool _ => "bool"
  | VInt _ => "int"
  | VFloat _ => "float"
  | VStr _ => "str"
  | VList _ => "list"
  | VDict _ => "dict"
  end.

(** A call into a library that either raises, with [str(e)], or returns. *)
Inductive outcome (A : Type) :=
  | Raises (e : string)
  | Returns (a : A).
Arguments Raises {A} e.
Arguments Returns {A} a.

(** ** The external engines *)

Record ocr_line := { text : string; confidence : Q }.

(** A candidate region [(x, y, w, h)] of the cascade classifier. *)
Record box := { bx : Z; by_ : Z; bw : Z; bh : Z }.

Record response := { status_code : Z; reason : string; url : string; body : string }.

Class Engines := {
  (** [%Y] of the C library pads to four digits *)
  pad_year : bool;
  (** [Image.open(..).convert("RGB")] saved as JPEG of quality 95 *)
  pil_to_jpeg : bytes -> outcome bytes;
  (** the body of the [try] of [preprocess_image_for_ocr] *)
  cv_enhance : bytes -> outcome bytes;
  (** [fitz.open(stream=.., filetype="pdf")] and its pages *)
  page : Type;
  fitz_open : bytes -> outcome (list page);
  (** [page.get_pixmap(dpi=300).tobytes("jpeg")] *)
  render_page : page -> outcome bytes;
  (** [paddle_ocr.ocr]: one entry per image, [None] when nothing is found *)
  paddle_ocr : bytes -> outcome (list (option (list ocr_line)));
  (** [requests.post(OLLAMA_API_URL, json=.., timeout=600)] *)
  requests_post : string -> list string -> outcome response;
  (** [json.loads] and [json.dumps] *)
  json_loads : string -> outcome value;
  json_dumps : value -> string;
  b64encode : bytes -> string;
  (** [cv2.imdecode(np.frombuffer(..), cv2.IMREAD_COLOR)]; the decoder
      returns [None] for data it cannot read *)
  image : Type;
  imdecode : bytes -> outcome (option image);
  (** [FACE_CASCADE.detectMultiScale(cv2.cvtColor(img, ..), ..)] *)
  detect_faces : image -> outcome (list box);
  (** [cv2.imencode('.jpg', img[y:y+h, x:x+w])], as bytes *)
  crop_jpeg : image -> box -> bytes;
  (** [database.save_processed_document] *)
  save_processed_document :
    string -> string -> list bytes -> option bytes -> outcome Z;
  (** the text of the master prompt before and after the raw text *)
  PROMPT_HEAD : string;
  PROMPT_TAIL : string
}.

(** ** Configuration *)

Definition OLLAMA_API_URL : string := "http://ollama:11434/api/generate".

(** [0.80] as the interpreter reads it: the nearest binary64 number. *)
Definition OCR_CONFIDENCE_THRESHOLD : Q := 3602879701896397 # 4503599627370496.

Section Pipeline.
Context {E : Engines}.

(** ** [normalize_image] *)
Definition normalize_image (image_bytes : bytes) : bytes :=
  match pil_to_jpeg image_bytes with
  | Returns jpeg => jpeg
  | Raises _ => image_bytes
  end.

(** ** [preprocess_image_for_ocr] *)
Definition preprocess_image_for_ocr (image_bytes : bytes) : bytes :=
  match cv_enhance image_bytes with
  | Returns png => png
  | Raises _ => image_bytes
  end.

(** ** [process_file_input]

    The pages are appended one by one inside the [try]: a page that raises
    ends the loop and keeps the pages appended before it. *)
Fixpoint render_pages (pages : list page) (images_bytes : list bytes) : list bytes :=
  match pages with
  | [] => images_bytes
  | p :: pages' =>
      match render_page p with
      | Returns img_bytes => render_pages pages' (images_bytes ++ [normalize_image img_bytes])
      | Raises _ => images_bytes
      end
  end.

Definition process_file_input (file_bytes : bytes) (filename : string) : list bytes :=
  let images_bytes := [] in
  if endswith ".pdf" (lower filename) then
    match fitz_open file_bytes with
    | Returns doc => render_pages doc images_bytes
    | Raises _ => images_bytes
    end
  else images_bytes ++ [normalize_image file_bytes].

(** ** [extract_text_with_paddleocr] *)

Definition page_marker (n : nat) : string :=
  "--- TEXT FROM PAGE/IMAGE " +:+ pretty n +:+ " ---".

Definition separator (i : nat) : string :=
  String "010" (page_marker (i + 1)) +:+ String "010" EmptyString.

(** [sep.join(l)] *)
Fixpoint join (sep : string) (l : list string) : string :=
  match l with
  | [] => EmptyString
  | [x] => x
  | x :: l' => x +:+ sep +:+ join sep l'
  end.

Definition above_threshold (line : ocr_line) : bool :=
  negb (Qle_bool (confidence line) OCR_CONFIDENCE_THRESHOLD).

Definition high_confidence_texts (lines : list ocr_line) : list string :=
  map text (filter (fun line => above_threshold line = true) lines).

(** What one image adds after its separator. *)
Definition page_text (img_bytes : bytes) : string :=
  let processed_bytes := preprocess_image_for_ocr img_bytes in
  match paddle_ocr processed_bytes with
  | Returns (Some (line :: lines) :: _) =>
      join (String "010" EmptyString) (high_confidence_texts (line :: lines))
  | Returns _ => EmptyString          (* [result] or [result[0]] is empty *)
  | Raises _ => EmptyString
  end.

Fixpoint extract_loop (i : nat) (images : list bytes) (full_text : string) : string :=
  match images with
  | [] => full_text
  | img_bytes :: rest =>
      extract_loop (S i) rest (full_text +:+ separator i +:+ page_text img_bytes)
  end.

Definition extract_text_with_paddleocr (ordered_image_bytes : list bytes) : string :=
  extract_loop 0 ordered_image_bytes EmptyString.

(** ** [structure_data_with_master_prompt] *)

Definition master_prompt (raw_text : string) : string :=
  PROMPT_HEAD +:+ raw_text +:+ PROMPT_TAIL.

(** [Response.raise_for_status] of [requests]: the message of the
    [HTTPError] it raises, for a status from 400 to 599 only. *)
Definition raise_for_status (r : response) : option string :=
  if (400 <=? status_code r) && (status_code r <? 500) then
    Some (pretty (status_code r) +:+ " Client Error: " +:+ reason r
          +:+ " for url: " +:+ url r)
  else if (500 <=? status_code r) && (status_code r <? 600) then
    Some (pretty (status_code r) +:+ " Server Error: " +:+ reason r
          +:+ " for url: " +:+ url r)
  else None.

Definition error_record (e : string) : value :=
  VDict {[ "error" :=
           VStr ("The language model failed to structure the text. Error: " +:+ e) ]}.

Definition structure_data_with_master_prompt
    (raw_text : string) (base64_images : list string) : value :=
  let prompt := master_prompt raw_text in
  match requests_post prompt base64_images with
  | Raises e => error_record e
  | Returns resp =>
      match raise_for_status resp with
      | Some e => error_record e
      | None =>
          match json_loads (body resp) with            (* response.json() *)
          | Raises e => error_record e
          | Returns (VDict d) =>
              match default (VStr "{}") (d !! "response") with
              | VStr s =>
                  match json_loads s with
                  | Raises e => error_record e
                  | Returns extracted_data => extracted_data
                  end
              | v => error_record
                       ("the JSON object must be str, bytes or bytearray, not "
                        +:+ type_name v)
              end
          | Returns v =>
              error_record ("'" +:+ type_name v +:+ "' object has no attribute 'get'")
          end
      end
  end.

(** ** [post_process_and_validate] *)

Definition DATE_FORMATS : list string :=
  ["%Y-%m-%d"; "%d %b %Y"; "%B %d, %Y"; "%d/%m/%Y"; "%m/%d/%Y"]%string.

(** The inner loop: the first format that parses gives the new string. *)
Fixpoint try_formats (v : string) (fmts : list string) : option string :=
  match fmts with
  | [] => None
  | fmt :: fmts' =>
      match strptime v fmt with
      | Some dt => Some (strftime pad_year dt "%Y-MM-DD")
      | None => try_formats v fmts'
      end
  end.

(** What the body of the outer loop assigns to [data[key]], if anything. *)
Definition reformatted (key : string) (v : value) : option value :=
  match v with
  | VStr s =>
      if contains "date" (lower key) then VStr <$> try_formats s DATE_FORMATS
      else None
  | _ => None
  end.

Definition post_process_and_validate (data : value) : value :=
  match data with
  | VDict d =>
      VDict (map_fold (fun key v (data : gmap string value) =>
                         match reformatted key v with
                         | Some v' => <[key := v']> data
                         | None => data
                         end) d d)
  | _ => data
  end.

(** ** [detect_and_crop_face] *)

(** The product of two [int32] entries of the detection array. *)
Definition wrap32 (z : Z) : Z := (z + 2 ^ 31) mod 2 ^ 32 - 2 ^ 31.

Definition area (f : box) : Z := wrap32 (bw f * bh f).

Definition larger (f g : box) : Prop := area g <= area f.

#[global] Instance larger_dec : RelDecision larger :=
  fun f g => decide (area g <= area f).

(** [sorted(faces, key=area, reverse=True)]: stable, largest first. *)
Definition sorted_by_area_desc (faces : list box) : list box :=
  merge_sort larger faces.

Fixpoint detect_and_crop_face (image_bytes_list : list bytes) : option bytes :=
  match image_bytes_list with
  | [] => None
  | img_bytes :: rest =>
      match imdecode img_bytes with
      | Raises _ => detect_and_crop_face rest
      | Returns None => detect_and_crop_face rest
      | Returns (Some img) =>
          match detect_faces img with
          | Raises _ => detect_and_crop_face rest
          | Returns faces =>
              if (0 <? length faces)%nat then
                match sorted_by_area_desc faces with
                | f :: _ => Some (crop_jpeg img f)
                | [] => detect_and_crop_face rest
                end
              else detect_and_crop_face rest
          end
      end
  end.

(** ** The task *)

Inductive exn :=
  | Exception (arg : value)    (* [Exception(arg)] *)
  | TypeError
  | KeyError (key : string)
  | Raised (e : string).       (* raised by a collaborator *)

(** What the task does that is seen from outside, in order. *)
Inductive event :=
  | Progress (status : string)
  | CallOcr (images : list bytes)
  | CallStructure (raw_text : string) (base64_images : list string)
  | CallValidate (data : value)
  | CallFaces (images : list bytes)
  | CallSave (doc_type json_data : string) (original_images : list bytes)
             (face_image : option bytes).

(** A computation that logs events and ends by raising or returning. *)
Definition M (A : Type) : Type := list event * (exn + A).

Definition ret {A} (a : A) : M A := ([], inr a).
Definition raise {A} (e : exn) : M A := ([], inl e).
Definition emit (ev : event) : M unit := ([ev], inr tt).
Definition bind {A B} (m : M A) (k : A -> M B) : M B :=
  match m with
  | (t, inl e) => (t, inl e)
  | (t, inr a) => let '(t', r) := k a in (t ++ t', r)
  end.
Definition lift {A} (o : outcome A) : M A :=
  match o with
  | Raises e => raise (Raised e)
  | Returns a => ret a
  end.

#[global] Instance M_ret : MRet M := @ret.
#[global] Instance M_bind : MBind M := fun A B k m => bind m k.

(** [needle in v] for the string ["error"]. *)
Definition is_str (s : string) (v : value) : bool :=
  match v with VStr s' => String.eqb s s' | _ => false end.

Definition py_in (needle : string) (v : value) : M bool :=
  match v with
  | VDict d => ret (bool_decide (is_Some (d !! needle)))
  | VList l => ret (existsb (is_str needle) l)
  | VStr s => ret (contains needle s)
  | _ => raise TypeError
  end.

(** [v[key]] for a string [key]. *)
Definition getitem (v : value) (key : string) : M value :=
  match v with
  | VDict d => match d !! key with Some x => ret x | None => raise (KeyError key) end
  | _ => raise TypeError
  end.

Definition str_le (a b : string) : Prop := String.leb a b = true.

#[global] Instance str_le_dec : RelDecision str_le :=
  fun a b => decide (String.leb a b = true).

(** [sorted(d.keys())] *)
Definition sorted_keys {A} (d : gmap string A) : list string :=
  merge_sort str_le (map fst (map_to_list d)).

Fixpoint load_files (file_contents_dict : gmap string (string * bytes))
    (keys : list string) (all_image_bytes original_images_to_save : list bytes)
    : M (list bytes * list bytes) :=
  match keys with
  | [] => ret (all_image_bytes, original_images_to_save)
  | key :: keys' =>
      match file_contents_dict !! key with
      | None => raise (KeyError key)
      | Some (filename, file_bytes) =>
          let original_images_to_save := original_images_to_save ++ [file_bytes] in
          let processed_images := process_file_input file_bytes filename in
          load_files file_contents_dict keys'
            (all_image_bytes ++ processed_images) original_images_to_save
      end
  end.

Definition task_body (file_contents_dict : gmap string (string * bytes))
    (doc_type : string) : M (string * Z) :=
  loaded ← load_files file_contents_dict (sorted_keys file_contents_dict) [] [];
  let '(all_image_bytes, original_images_to_save) := loaded in
  match all_image_bytes with
  | [] => raise (Exception
            (VStr "No valid images could be processed from the provided file(s)."))
  | _ => ret tt
  end;;
  emit (Progress "Cleaning images & performing high-accuracy OCR...");;
  emit (CallOcr all_image_bytes);;
  let raw_text := extract_text_with_paddleocr all_image_bytes in
  emit (Progress "AI is analyzing and structuring the document...");;
  let base64_images := map b64encode all_image_bytes in
  emit (CallStructure raw_text base64_images);;
  let structured_data := structure_data_with_master_prompt raw_text base64_images in
  has_error ← py_in "error" structured_data;
  (if has_error : bool then
     arg ← getitem structured_data "error"; raise (Exception arg)
   else ret tt);;
  emit (Progress "Validating and formatting final data...");;
  emit (CallValidate structured_data);;
  let final_data := post_process_and_validate structured_data in
  emit (Progress "Detecting faces...");;
  emit (CallFaces all_image_bytes);;
  let face_image_bytes := detect_and_crop_face all_image_bytes in
  emit (Progress "Saving to database...");;
  let json_data := json_dumps final_data in
  emit (CallSave doc_type json_data original_images_to_save face_image_bytes);;
  doc_id ← lift (save_processed_document doc_type json_data
                   original_images_to_save face_image_bytes);
  ret ("Task Complete!"%string, doc_id).

(** The state the task queue records for the run. *)
Inductive task_state :=
  | FAILURE (e : exn)
  | SUCCESS (status : string) (result : Z).

(** [process_documents_task]: the handler re-raises, so an exception of the
    body is the failure of the run. *)
Definition process_documents_task (file_contents_dict : gmap string (string * bytes))
    (doc_type : string) : list event * task_state :=
  match task_body file_contents_dict doc_type with
  | (t, inl e) => (t, FAILURE e)
  | (t, inr (status, doc_id)) => (t, SUCCESS status doc_id)
  end.

End Pipeline.

(* ===================================================================== *)
(** * Part I, continued: the vocabulary of the statements                 *)
(* ===================================================================== *)

(** ** Text *)

Fixpoint all_digits (s : string) : bool :=
  match s with
  | EmptyString => true
  | String c s' => is_digit c && all_digits s'
  end.

(** A character a reformatted date can hold after its first one. *)
Definition year_text_char (c : ascii) : bool :=
  is_digit c || Ascii.eqb c "-" || Ascii.eqb c "M".

(** What a day or a month leaves is the data less one or two characters. *)
Definition drops_one_or_two (s r : string) : Prop :=
  (exists a, s = String a r) \/ (exists a b, s = String a (String b r)).

(** The item matches no data that starts with [c]. *)
Definition head_rejects (it : item) (c : ascii) : Prop :=
  forall f t, re_item it f (String c t) = [].

(** The strings of a list, one after the other. *)
Fixpoint concat_all (l : list string) : string :=
  match l with
  | [] => EmptyString
  | x :: l' => x +:+ concat_all l'
  end.

Definition newline : string := String "010" EmptyString.

Section Vocabulary.
Context {E : Engines}.

(** The value a field holds after [post_process_and_validate]. *)
Definition normalized (key : string) (v : value) : value :=
  default v (reformatted key v).


(** The candidate regions the classifier reports for an image; none when
    the image does not decode or the classifier raises. *)
Definition detections (img_bytes : bytes) : list box :=
  match imdecode img_bytes with
  | Returns (Some img) =>
      match detect_faces img with
      | Returns faces => faces
      | Raises _ => []
      end
  | _ => []
  end.

(** The submitted files in the order the task takes them. *)
Definition submitted (d : gmap string (string * bytes)) : list (string * bytes) :=
  omap (fun key => d !! key) (sorted_keys d).

Definition all_images (d : gmap string (string * bytes)) : list bytes :=
  concat (map (fun '(filename, file_bytes) => process_file_input file_bytes filename)
              (submitted d)).

Definition originals (d : gmap string (string * bytes)) : list bytes :=
  map snd (submitted d).

(** What the task passes from stage to stage for a submission. *)
Definition raw_text_of (d : gmap string (string * bytes)) : string :=
  extract_text_with_paddleocr (all_images d).

Definition base64_of (d : gmap string (string * bytes)) : list string :=
  map b64encode (all_images d).

Definition structured_of (d : gmap string (string * bytes)) : value :=
  structure_data_with_master_prompt (raw_text_of d) (base64_of d).

Definition face_of (d : gmap string (string * bytes)) : option bytes :=
  detect_and_crop_face (all_images d).

(** The events of a run up to the answer of the structuring engine. *)
Definition events_to_structuring (d : gmap string (string * bytes)) : list event :=
  [Progress "Cleaning images & performing high-accuracy OCR...";
   CallOcr (all_images d);
   Progress "AI is analyzing and structuring the document...";
   CallStructure (raw_text_of d) (base64_of d)].

(** The events of a run after a structuring result without an error. *)
Definition events_after_structuring (d : gmap string (string * bytes))
    (doc_type : string) : list event :=
  [Progress "Validating and formatting final data...";
   CallValidate (structured_of d);
   Progress "Detecting faces...";
   CallFaces (all_images d);
   Progress "Saving to database...";
   CallSave doc_type (json_dumps (post_process_and_validate (structured_of d)))
            (originals d) (face_of d)].

Definition NO_IMAGES : exn :=
  Exception (VStr "No valid images could be processed from the provided file(s).").

End Vocabulary.

(** ** Stand-ins for the engines

    Small engines on which the statements are tried: every image decodes,
    a PDF is one page unless its bytes are empty, the recognizer reads two
    lines, the classifier finds two regions, and the endpoint gives the
    reply the engines are built with. *)

Definition quote : string := String "034" EmptyString.

(** A body without the key [response]. *)
Definition BODY_DONE : string :=
  "{" +:+ quote +:+ "done" +:+ quote +:+ ": true}".

(** A body whose [response] is the text of the empty object. *)
Definition BODY_EMPTY_RESPONSE : string :=
  "{" +:+ quote +:+ "response" +:+ quote +:+ ": " +:+ quote +:+ "{}" +:+ quote +:+ "}".

Definition demo_loads (s : string) : outcome value :=
  if String.eqb s "{}" then Returns (VDict ∅)
  else if String.eqb s BODY_DONE then Returns (VDict {[ "done" := VBool true ]})
  else if String.eqb s BODY_EMPTY_RESPONSE
       then Returns (VDict {[ "response" := VStr "{}" ]})
  else Raises "Expecting value: line 1 column 1 (char 0)".

Definition demo_dumps (v : value) : string :=
  match v with
  | VDict m => match map_to_list m with [] => "{}" | _ => "{...}" end
  | _ => "null"
  end.

Definition demo_lines : list ocr_line :=
  [ {| text := "Date of Birth: 15/03/1990"; confidence := 97 # 100 |};
    {| text := "smudge"; confidence := 8 # 10 |} ].

Definition demo_faces : list box :=
  [ {| bx := 10; by_ := 10; bw := 30; bh := 30 |};
    {| bx := 50; by_ := 20; bw := 60; bh := 80 |} ].

Definition demo_engines (reply : outcome response) : Engines :=
  {| pad_year := true;
     pil_to_jpeg := Returns;
     cv_enhance := Returns;
     page := bytes;
     fitz_open := fun b => match b with
                           | [] => Raises "Cannot open empty stream"
                           | _ => Returns [b]
                           end;
     render_page := Returns;
     paddle_ocr := fun _ => Returns [Some demo_lines];
     requests_post := fun _ _ => reply;
     json_loads := demo_loads;
     json_dumps := demo_dumps;
     b64encode := fun _ => "/9j/";
     image := bytes;
     imdecode := fun b => Returns (Some b);
     detect_faces := fun _ => Returns demo_faces;
     crop_jpeg := fun img _ => img;
     save_processed_document := fun _ _ _ _ => Returns 1;
     PROMPT_HEAD := "Raw OCR Text: ";
     PROMPT_TAIL := "" |}.

Definition reply_of (status : Z) (reason body : string) : outcome response :=
  Returns {| status_code := status; reason := reason;
             url := OLLAMA_API_URL; body := body |}.

(** One JPEG, and one PDF that cannot be opened. *)
Definition one_jpeg : gmap string (string * bytes) :=
  {[ "file_0" := ("id.jpg"%string, [Byte.x01]) ]}.

Definition broken_pdf : gmap string (string * bytes) :=
  {[ "file_0" := ("scan.PDF"%string, []) ]}.

(** Engines with more to choose: the reply, the JSON reader and the page
    renderer are given; a PDF has one page per byte. *)
Definition lab_engines (reply : outcome response)
    (loads : string -> outcome value) (render : bytes -> outcome bytes) : Engines :=
  {| pad_year := false;
     pil_to_jpeg := Returns;
     cv_enhance := Returns;
     page := bytes;
     fitz_open := fun b => Returns (map (fun x => [x]) b);
     render_page := render;
     paddle_ocr := fun _ => Returns [Some demo_lines];
     requests_post := fun _ _ => reply;
     json_loads := loads;
     json_dumps := demo_dumps;
     b64encode := fun _ => "/9j/";
     image := bytes;
     imdecode := fun b => Returns (Some b);
     detect_faces := fun _ => Returns demo_faces;
     crop_jpeg := fun img _ => img;
     save_processed_document := fun _ _ _ _ => Returns 1;
     PROMPT_HEAD := "Raw OCR Text: ";
     PROMPT_TAIL := "" |}.

(** A renderer that fails on the page [00]. *)
Definition render_but_zero (p : bytes) : outcome bytes :=
  match p with
  | [Byte.x00] => Raises "cannot render page"
  | _ => Returns p
  end.

(** A body whose [response] is the text of a number, and its reader. *)
Definition BODY_NUMBER : string :=
  "{" +:+ quote +:+ "response" +:+ quote +:+ ": " +:+ quote +:+ "5" +:+ quote +:+ "}".

Definition number_loads (s : string) : outcome value :=
  if String.eqb s "5" then Returns (VInt 5)
  else if String.eqb s BODY_NUMBER then Returns (VDict {[ "response" := VStr "5" ]})
  else demo_loads s.

(** ** The web routes of [app.py] that start a run

    An uploaded part is its [filename] and what [read()] returns.  A route
    answers with a flashed message, with an error of status 400, or by
    starting the task on a dictionary of the parts. *)

Record upload := { upload_filename : string; upload_bytes : bytes }.

Definition upload_entry (f : upload) : string * bytes :=
  (upload_filename f, upload_bytes f).

(** [f"file_{i}"] *)
Definition file_key (i : nat) : string := "file_" +:+ pretty i.

(** [{f"file_{i}": (f.filename, f.read()) for i, f in enumerate(files)}]: a
    later entry would replace an earlier one of the same key. *)
Definition make_file_contents_dict (files : list upload)
    : gmap string (string * bytes) :=
  list_to_map (reverse (imap (fun i f => (file_key i, upload_entry f)) files)).

Inductive web_reply :=
  | Flashed (message : string)
  | BadRequest (error : string)
  | Dispatched (file_contents_dict : gmap string (string * bytes))
               (doc_type : string).

(** [all(f.filename == '' for f in files)] *)
Definition all_unnamed (files : list upload) : bool :=
  forallb (fun f => String.eqb (upload_filename f) "") files.

(** [not x] for an optional string and for a list. *)
Definition falsy_str (x : option string) : bool :=
  match x with
  | None => true
  | Some s => String.eqb s ""
  end.

Definition falsy_list {A} (l : list A) : bool :=
  match l with [] => true | _ => false end.

(** The POST branch of [index]: [doc_type] is [request.form.get('doc_type')],
    [files] is [request.files.getlist('document_files')]. *)
Definition index_post (doc_type : option string) (files : list upload) : web_reply :=
  if falsy_str doc_type || falsy_list files || all_unnamed files then
    Flashed "Please select a document type and upload at least one file (image or PDF)."
  else Dispatched (make_file_contents_dict files) (default EmptyString doc_type).

(** [api_extract]: [files_part] is [None] when the request has no part named
    [files]. *)
Definition api_extract (files_part : option (list upload))
    (form_doc_type : option string) : web_reply :=
  match files_part with
  | None => BadRequest "No 'files' part in the request"
  | Some files =>
      let doc_type := default "Unknown"%string form_doc_type in
      if falsy_list files || all_unnamed files then BadRequest "No selected files"
      else Dispatched (make_file_contents_dict files) doc_type
  end.

(** Eleven parts, for trying the statements. *)
Definition eleven_uploads : list upload :=
  map (fun b => {| upload_filename := "page.jpg"; upload_bytes := [b] |})
      [Byte.x00; Byte.x01; Byte.x02; Byte.x03; Byte.x04; Byte.x05;
       Byte.x06; Byte.x07; Byte.x08; Byte.x09; Byte.x0a].

(* ===================================================================== *)
(** * Part II: properties                                                 *)
(* ===================================================================== *)

(** ** Characters and decimal text *)

Ltac each_char c :=
  destruct c as [[] [] [] [] [] [] [] []].

Lemma year_text_char_facts c :
  year_text_char c = true ->
  Ascii.eqb (lower_char c) (lower_char "/") = false /\ isspace c = false.
Proof. each_char c; intros H; vm_compute in H; try discriminate H; now split. Qed.

Lemma digit_not_dash c :
  is_digit c = true -> Ascii.eqb (lower_char c) (lower_char "-") = false.
Proof. each_char c; intros H; vm_compute in H; try discriminate H; reflexivity. Qed.

Lemma digit_year_text_char c : is_digit c = true -> year_text_char c = true.
Proof. intros H. unfold year_text_char. now rewrite H. Qed.

Lemma pretty_N_char_digit x : is_digit (pretty_N_char x) = true.
Proof. unfold pretty_N_char. repeat case_match; reflexivity. Qed.

Lemma pretty_N_go_digits x : forall s,
  all_digits s = true -> all_digits (pretty_N_go x s) = true.
Proof.
  induction (N.lt_wf_0 x) as [x _ IH]; intros s Hs.
  destruct (decide (x = 0)%N) as [->|Hx].
  - now rewrite pretty_N_go_0.
  - rewrite pretty_N_go_step by lia.
    apply IH; [apply N.div_lt; lia|].
    simpl. now rewrite pretty_N_char_digit.
Qed.

Lemma pretty_N_go_nonempty x s : (0 < x)%N -> pretty_N_go x s <> EmptyString.
Proof.
  revert s. induction (N.lt_wf_0 x) as [x _ IH]; intros s Hx.
  rewrite pretty_N_go_step by done.
  destruct (decide (x `div` 10 = 0)%N) as [->|Hd].
  - now rewrite pretty_N_go_0.
  - apply IH; [apply N.div_lt; lia|now apply N.neq_0_lt_0].
Qed.

Lemma pretty_Z_digits (y : Z) :
  0 <= y -> all_digits (pretty y) = true /\ pretty y <> EmptyString.
Proof.
  intros Hy. destruct y as [|p|p]; [now split| |lia].
  unfold pretty, pretty_Z, pretty, pretty_positive, pretty, pretty_N.
  case_decide; [lia|]. split.
  - now apply pretty_N_go_digits.
  - apply pretty_N_go_nonempty; lia.
Qed.

Lemma zfill_digits n : forall s,
  all_digits s = true -> s <> EmptyString ->
  all_digits (zfill n s) = true /\ zfill n s <> EmptyString.
Proof.
  intros s Hs Hne. unfold zfill.
  induction (n - String.length s)%nat as [|k [IHd IHn]]; [now split|].
  change (zeros (S k) +:+ s) with (String "0" (zeros k +:+ s)).
  split; [simpl; exact IHd|discriminate].
Qed.

Lemma fmt_year_digits pad y :
  0 <= y -> all_digits (fmt_year pad y) = true /\ fmt_year pad y <> EmptyString.
Proof.
  intros Hy. destruct (pretty_Z_digits y Hy) as [Hd Hne].
  unfold fmt_year. destruct pad; [now apply zfill_digits|now split].
Qed.

(** ** No format parses a reformatted date *)

Lemma flat_map_nil {A B} (f : A -> list B) (l : list A) :
  (forall x, In x l -> f x = []) -> flat_map f l = [].
Proof.
  induction l as [|x l IH]; intros H; [reflexivity|].
  simpl. rewrite (H x) by now left. apply IH. intros y Hy. apply H. now right.
Qed.

Lemma two_rest p1 p2 s v r :
  In (v, r) (two p1 p2 s) -> exists a b, s = String a (String b r).
Proof.
  unfold two. destruct s as [|a [|b s']]; simpl; try tauto.
  destruct (p1 a && p2 b); simpl; [|tauto].
  intros [Heq|Hf]; [|destruct Hf]. injection Heq as _ <-. eauto.
Qed.

Lemma one_rest p s v r : In (v, r) (one p s) -> exists a, s = String a r.
Proof.
  unfold one. destruct s as [|a s']; simpl; try tauto.
  destruct (p a); simpl; [|tauto].
  intros [Heq|Hf]; [|destruct Hf]. injection Heq as _ <-. eauto.
Qed.

Lemma re_match_cons it p f s :
  re_match (it :: p) f s
  = flat_map (fun '(f', rest) => re_match p f' rest) (re_item it f s).
Proof. reflexivity. Qed.

Lemma re_m_rest s v r : In (v, r) (re_m s) -> drops_one_or_two s r.
Proof.
  unfold re_m. rewrite !in_app_iff. intros [H|[H|H]].
  - right. eapply two_rest, H.
  - right. eapply two_rest, H.
  - left. eapply one_rest, H.
Qed.

Lemma re_d_rest s v r : In (v, r) (re_d s) -> drops_one_or_two s r.
Proof.
  unfold re_d. rewrite !in_app_iff. intros [H|[H|[H|[H|H]]]].
  - right. eapply two_rest, H.
  - right. eapply two_rest, H.
  - right. eapply two_rest, H.
  - left. eapply one_rest, H.
  - destruct s as [|a s']; [destruct H|].
    destruct (Ascii.eqb a " "); [|destruct H].
    apply one_rest in H as [b ->]. right. eauto.
Qed.

Lemma slash_rejects c : year_text_char c = true -> head_rejects (Lit "/") c.
Proof.
  intros H f t. apply year_text_char_facts in H as [H _].
  simpl. now rewrite H.
Qed.

Lemma spaces_reject c : year_text_char c = true -> head_rejects Spaces c.
Proof.
  intros H f t. apply year_text_char_facts in H as [_ H].
  simpl. now rewrite H.
Qed.

Lemma number_then_reject (dir : ascii) it p f a b c t :
  dir = "d"%char \/ dir = "m"%char ->
  head_rejects it b -> head_rejects it c ->
  re_match (Dir dir :: it :: p) f (String a (String b (String c t))) = [].
Proof.
  intros Hdir Hb Hc.
  assert (Hstep : forall f' r,
            drops_one_or_two (String a (String b (String c t))) r ->
            re_match (it :: p) f' r = []).
  { intros f' r [[x Hx]|[x [y Hxy]]].
    - injection Hx as _ <-. simpl. now rewrite Hb.
    - injection Hxy as _ _ <-. simpl. now rewrite Hc. }
  change (re_match (Dir dir :: it :: p) f ?s)
    with (flat_map (fun '(f', rest) => re_match (it :: p) f' rest)
            (re_item (Dir dir) f s)).
  apply flat_map_nil. intros [f' r] Hin. apply Hstep.
  destruct Hdir as [-> | ->]; simpl in Hin; apply in_map_iff in Hin
    as [[v r'] [Heq Hin]]; injection Heq as _ <-.
  - eapply re_d_rest, Hin.
  - eapply re_m_rest, Hin.
Qed.

Lemma month_name_rejects_digit a : is_digit a = true -> head_rejects (Dir "B") a.
Proof.
  each_char a; intros H; vm_compute in H; try discriminate H;
    intros f t; reflexivity.
Qed.

Lemma year_text_shape ys :
  ys <> EmptyString -> all_digits ys = true ->
  exists a b c t,
    ys +:+ "-MM-DD" = String a (String b (String c t))
    /\ is_digit a = true /\ year_text_char b = true /\ year_text_char c = true.
Proof.
  intros Hne Hd. destruct ys as [|a ys]; [done|].
  simpl in Hd. apply andb_prop in Hd as [Ha Hd].
  destruct ys as [|b ys].
  { exists a, "-"%char, "M"%char. eexists. repeat split; done. }
  simpl in Hd. apply andb_prop in Hd as [Hb Hd].
  destruct ys as [|c ys].
  { exists a, b, "-"%char. eexists. repeat split; auto using digit_year_text_char. }
  simpl in Hd. apply andb_prop in Hd as [Hc Hd].
  exists a, b, c. eexists. repeat split; auto using digit_year_text_char.
Qed.

Lemma iso_rejects_year_text ys f :
  all_digits ys = true ->
  re_match (pattern "%Y-%m-%d") f (ys +:+ "-MM-DD") = [].
Proof.
  intros Hd.
  change (pattern "%Y-%m-%d") with [Dir "Y"; Lit "-"; Dir "m"; Lit "-"; Dir "d"].
  destruct ys as [|a [|b [|c [|d ys]]]]; simpl in Hd;
    repeat match type of Hd with
           | _ && _ = true => let H := fresh "Hc" in apply andb_prop in Hd as [H Hd]
           end.
  - reflexivity.
  - simpl. unfold re_Y. rewrite Hc. reflexivity.
  - simpl. unfold re_Y. rewrite Hc, Hc0. reflexivity.
  - simpl. unfold re_Y. rewrite Hc, Hc0, Hc1. reflexivity.
  - simpl. unfold re_Y. rewrite Hc, Hc0, Hc1, Hc2. simpl.
    destruct ys as [|e ys]; [reflexivity|].
    simpl in Hd. apply andb_prop in Hd as [He _].
    simpl. rewrite (digit_not_dash e He). reflexivity.
Qed.

Lemma year_text_unparseable ys fmt :
  ys <> EmptyString -> all_digits ys = true -> In fmt DATE_FORMATS ->
  strptime (ys +:+ "-MM-DD") fmt = None.
Proof.
  intros Hne Hd Hin. unfold strptime.
  enough (re_match (pattern fmt) no_fields (ys +:+ "-MM-DD") = []) as -> by done.
  destruct (year_text_shape ys Hne Hd) as (a & b & c & t & Hs & Ha & Hb & Hc).
  simpl in Hin. destruct Hin as [<-|[<-|[<-|[<-|[<-|[]]]]]].
  - now apply iso_rejects_year_text.
  - rewrite Hs. change (pattern "%d %b %Y")
      with (Dir "d" :: Spaces :: [Dir "b"; Spaces; Dir "Y"]).
    apply number_then_reject; auto using spaces_reject.
  - rewrite Hs. change (pattern "%B %d, %Y")
      with (Dir "B" :: [Spaces; Dir "d"; Lit ","; Spaces; Dir "Y"]).
    rewrite re_match_cons. now rewrite (month_name_rejects_digit a Ha).
  - rewrite Hs. change (pattern "%d/%m/%Y")
      with (Dir "d" :: Lit "/" :: [Dir "m"; Lit "/"; Dir "Y"]).
    apply number_then_reject; auto using slash_rejects.
  - rewrite Hs. change (pattern "%m/%d/%Y")
      with (Dir "m" :: Lit "/" :: [Dir "d"; Lit "/"; Dir "Y"]).
    apply number_then_reject; auto using slash_rejects.
Qed.

(** ** Post-validation *)

Section PostValidation.
Context {E : Engines}.

Lemma strptime_year_range s fmt dt :
  strptime s fmt = Some dt -> 1 <= year dt <= 9999.
Proof.
  unfold strptime, make_date. intros H.
  repeat case_match; try discriminate H.
  injection H as <-. simpl. lia.
Qed.

Lemma strftime_literal pad dt :
  strftime pad dt "%Y-MM-DD" = fmt_year pad (year dt) +:+ "-MM-DD".
Proof. reflexivity. Qed.

Lemma try_formats_Some s fmts out :
  try_formats s fmts = Some out ->
  exists fmt dt, In fmt fmts /\ strptime s fmt = Some dt
                 /\ out = strftime pad_year dt "%Y-MM-DD".
Proof.
  induction fmts as [|fmt fmts IH]; simpl; [discriminate|].
  destruct (strptime s fmt) as [dt|] eqn:Hp.
  - intros [= <-]. exists fmt, dt. auto.
  - intros H. destruct (IH H) as (fmt' & dt & Hin & Hp' & ->).
    exists fmt', dt. auto.
Qed.

Lemma try_formats_None s fmts :
  (forall fmt, In fmt fmts -> strptime s fmt = None) ->
  try_formats s fmts = None.
Proof.
  induction fmts as [|fmt fmts IH]; intros H; [reflexivity|].
  simpl. rewrite (H fmt) by now left. apply IH. intros f Hf. apply H. now right.
Qed.

(** A date the validator has rewritten parses against none of the formats. *)
Lemma reformatted_text_unparseable s out :
  try_formats s DATE_FORMATS = Some out -> try_formats out DATE_FORMATS = None.
Proof.
  intros H. apply try_formats_Some in H as (fmt & dt & _ & Hp & ->).
  apply strptime_year_range in Hp.
  rewrite strftime_literal.
  destruct (fmt_year_digits pad_year (year dt)) as [Hd Hne]; [lia|].
  apply try_formats_None. intros f Hf. now apply year_text_unparseable.
Qed.

Lemma reformatted_stable key v v' :
  reformatted key v = Some v' -> reformatted key v' = None.
Proof.
  unfold reformatted. destruct v as [| | | |s| |]; try discriminate.
  destruct (contains "date" (lower key)); [|discriminate].
  destruct (try_formats s DATE_FORMATS) as [out|] eqn:Ht; [|discriminate].
  intros [= <-]. now rewrite (reformatted_text_unparseable s out Ht).
Qed.

Lemma normalized_idem key v : normalized key (normalized key v) = normalized key v.
Proof.
  unfold normalized. destruct (reformatted key v) as [v'|] eqn:Hr; simpl.
  - now rewrite (reformatted_stable key v v' Hr).
  - now rewrite Hr.
Qed.

(** The loop over [data.items()] rewrites each field on its own. *)
Lemma post_process_lookup (d : gmap string value) :
  exists d', post_process_and_validate (VDict d) = VDict d'
             /\ forall key, d' !! key = normalized key <$> d !! key.
Proof.
  eexists. split; [reflexivity|]. intros key.
  set (step := fun key v (data : gmap string value) =>
                 match reformatted key v with
                 | Some v' => <[key := v']> data
                 | None => data
                 end).
  assert (Hgen : forall b m : gmap string value, forall k,
            map_fold step b m !! k
            = match m !! k ≫= reformatted k with
              | Some v' => Some v'
              | None => b !! k
              end).
  { intros b m. apply (map_fold_weak_ind (fun r m => forall k,
        r !! k = match m !! k ≫= reformatted k with
                 | Some v' => Some v'
                 | None => b !! k
                 end)).
    - intros k. now rewrite lookup_empty.
    - intros i x m' r Hi IH k. unfold step.
      destruct (decide (i = k)) as [->|Hne].
      + rewrite lookup_insert_eq. simpl.
        destruct (reformatted k x) as [v'|] eqn:Hr.
        * now rewrite lookup_insert_eq.
        * rewrite IH, Hi. reflexivity.
      + rewrite lookup_insert_ne by done.
        destruct (reformatted i x); [rewrite lookup_insert_ne by done|]; apply IH. }
  rewrite Hgen. unfold normalized.
  destruct (d !! key) as [v|]; simpl; [|reflexivity].
  now destruct (reformatted key v).
Qed.

Lemma post_process_not_dict v :
  (forall d, v <> VDict d) -> post_process_and_validate v = v.
Proof. destruct v; try reflexivity. intros H. now destruct (H d). Qed.

End PostValidation.

Section PostValidationClaims.
Context {E : Engines}.

(** C7. Post-validation is idempotent: for every input value, a dictionary or
    not, applying [post_process_and_validate] twice gives what applying it
    once gives. *)
Theorem post_validation_idempotent (v : value) :
  post_process_and_validate (post_process_and_validate v)
  = post_process_and_validate v.
Proof.
  destruct v as [| | | | | |d]; try reflexivity.
  destruct (post_process_lookup d) as (d' & -> & Hd').
  destruct (post_process_lookup d') as (d'' & -> & Hd'').
  f_equal. apply map_eq. intros key.
  rewrite Hd'', Hd'. destruct (d !! key) as [v|]; simpl; [|reflexivity].
  now rewrite normalized_idem.
Qed.

(** C1, evaluated on the code.  The claim has the field ["15/03/1990"]
    rewritten to ["1990-03-15"]; the format string the code passes to
    [strftime] is ["%Y-MM-DD"], so the field becomes ["1990-MM-DD"]. *)
Theorem date_field_rewritten_with_literal_MM_DD :
  post_process_and_validate (VDict {[ "date_of_birth" := VStr "15/03/1990" ]})
  = VDict {[ "date_of_birth" := VStr "1990-MM-DD" ]}
  /\ VStr "1990-MM-DD" <> VStr "1990-03-15".
Proof.
  split; [|discriminate].
  unfold post_process_and_validate. rewrite map_fold_singleton.
  assert (reformatted "date_of_birth" (VStr "15/03/1990")
          = Some (VStr "1990-MM-DD")) as ->.
  { unfold reformatted.
    replace (contains "date" (lower "date_of_birth")) with true by reflexivity.
    unfold try_formats, DATE_FORMATS.
    replace (strptime "15/03/1990" "%Y-%m-%d") with (@None datetime) by reflexivity.
    replace (strptime "15/03/1990" "%d %b %Y") with (@None datetime) by reflexivity.
    replace (strptime "15/03/1990" "%B %d, %Y") with (@None datetime) by reflexivity.
    replace (strptime "15/03/1990" "%d/%m/%Y")
      with (Some {| year := 1990; month := 3; day := 15 |}) by reflexivity.
    rewrite strftime_literal. simpl year.
    destruct pad_year; reflexivity. }
  now rewrite insert_singleton_eq.
Qed.

End PostValidationClaims.

(** ** OCR extraction *)

Lemma append_cons x (a b : string) : String x a +:+ b = String x (a +:+ b).
Proof. reflexivity. Qed.

Lemma append_assoc (a b c : string) : (a +:+ b) +:+ c = a +:+ b +:+ c.
Proof.
  induction a as [|x a IH]; [reflexivity|].
  now rewrite !append_cons, IH.
Qed.

Lemma append_nil_r (a : string) : a +:+ EmptyString = a.
Proof.
  induction a as [|x a IH]; [reflexivity|].
  now rewrite append_cons, IH.
Qed.


Section Ocr.
Context {E : Engines}.


Lemma extract_loop_blocks images : forall i full_text,
  extract_loop i images full_text
  = full_text
    +:+ concat_all (imap (fun j img => separator (i + j) +:+ page_text img) images).
Proof.
  induction images as [|img images IH]; intros i full_text.
  - simpl. now rewrite append_nil_r.
  - simpl. rewrite IH, Nat.add_0_r, !append_assoc. do 3 f_equal.
    apply (f_equal concat_all), imap_ext. intros j x _. simpl.
    do 2 f_equal. lia.
Qed.




End Ocr.

(** ** Face location *)

Lemma wrap32_small z : - 2 ^ 31 <= z < 2 ^ 31 -> wrap32 z = z.
Proof.
  intros H. unfold wrap32.
  rewrite Z.mod_small by lia. lia.
Qed.

#[local] Instance larger_trans : Transitive larger.
Proof. intros f g h. unfold larger. lia. Qed.

#[local] Instance larger_total : Total larger.
Proof. intros f g. unfold larger. lia. Qed.

(** The head of the sorted candidates is a candidate, and none has a larger
    area as the code measures it. *)
Lemma sorted_by_area_head faces f rest :
  sorted_by_area_desc faces = f :: rest ->
  f ∈ faces /\ forall g, g ∈ faces -> area g <= area f.
Proof.
  intros Hs.
  assert (Hperm : f :: rest ≡ₚ faces).
  { rewrite <- Hs. apply merge_sort_Permutation. }
  assert (Hsorted : StronglySorted larger (f :: rest)).
  { rewrite <- Hs. apply (StronglySorted_merge_sort larger). }
  split.
  - rewrite <- Hperm. apply list_elem_of_here.
  - intros g Hg. rewrite <- Hperm in Hg.
    apply elem_of_cons in Hg as [->|Hg]; [lia|].
    apply StronglySorted_inv in Hsorted as [_ Hall].
    rewrite Forall_forall in Hall. apply (Hall g Hg).
Qed.

Lemma sorted_by_area_nonempty g faces : sorted_by_area_desc (g :: faces) <> [].
Proof.
  intros Hs.
  assert (Hperm : sorted_by_area_desc (g :: faces) ≡ₚ g :: faces)
    by apply merge_sort_Permutation.
  rewrite Hs in Hperm. now apply Permutation_nil_cons in Hperm.
Qed.

Section Faces.
Context {E : Engines}.

Lemma detect_skip img_bytes rest :
  detections img_bytes = [] ->
  detect_and_crop_face (img_bytes :: rest) = detect_and_crop_face rest.
Proof.
  unfold detections. simpl.
  destruct (imdecode img_bytes) as [e|[img|]]; try reflexivity.
  destruct (detect_faces img) as [e|faces]; try reflexivity.
  now intros ->.
Qed.

Lemma detect_hit img_bytes rest :
  detections img_bytes <> [] ->
  exists img f tail,
    imdecode img_bytes = Returns (Some img)
    /\ sorted_by_area_desc (detections img_bytes) = f :: tail
    /\ detect_and_crop_face (img_bytes :: rest) = Some (crop_jpeg img f).
Proof.
  unfold detections. simpl.
  destruct (imdecode img_bytes) as [e|[img|]]; try done.
  destruct (detect_faces img) as [e|[|g faces]]; try done.
  intros _.
  destruct (sorted_by_area_desc (g :: faces)) as [|f tail] eqn:Hs.
  { now destruct (sorted_by_area_nonempty g faces). }
  exists img, f, tail. auto.
Qed.

(** C6. Face location returns at most one crop.  When it returns one, the
    crop is cut from the first image, in order, for which the classifier
    reports a candidate, and it is the crop of a candidate whose area is at
    least the area of every candidate of that image; the later images are
    not looked at.  When no image yields a candidate, because it does not
    decode, the classifier raises or nothing is detected, the result is
    [None], not an exception.  The areas are products of [int32] numbers:
    the candidates are taken to fit, as regions of a decoded image do. *)
Theorem largest_face_of_first_image_with_faces (images : list bytes) :
  (forall img_bytes g, img_bytes ∈ images -> g ∈ detections img_bytes ->
     0 <= bw g * bh g < 2 ^ 31) ->
  match detect_and_crop_face images with
  | None => forall img_bytes, img_bytes ∈ images -> detections img_bytes = []
  | Some crop =>
      exists before img_bytes after img f,
        images = before ++ img_bytes :: after
        /\ (forall x, x ∈ before -> detections x = [])
        /\ imdecode img_bytes = Returns (Some img)
        /\ f ∈ detections img_bytes
        /\ crop = crop_jpeg img f
        /\ forall g, g ∈ detections img_bytes -> bw g * bh g <= bw f * bh f
  end.
Proof.
  induction images as [|x rest IH]; intros Hfit.
  { simpl. intros b Hb. now apply elem_of_nil in Hb. }
  destruct (detections x) as [|g0 gs] eqn:Hx.
  - rewrite (detect_skip x rest Hx).
    assert (Hfit' : forall img_bytes g, img_bytes ∈ rest ->
              g ∈ detections img_bytes -> 0 <= bw g * bh g < 2 ^ 31).
    { intros b g Hb. apply Hfit. now apply list_elem_of_further. }
    specialize (IH Hfit').
    destruct (detect_and_crop_face rest) as [crop|].
    + destruct IH as (before & b & after & img & f & -> & Hbefore & Hdec & Hf & Hc & Hmax).
      exists (x :: before), b, after, img, f. repeat split; auto.
      intros y Hy. apply elem_of_cons in Hy as [->|Hy]; auto.
    + intros b Hb. apply elem_of_cons in Hb as [->|Hb]; auto.
  - destruct (detect_hit x rest) as (img & f & tail & Hdec & Hs & ->).
    { rewrite Hx. discriminate. }
    apply sorted_by_area_head in Hs as [Hf Hmax].
    exists [], x, rest, img, f. repeat split; auto.
    + intros y Hy. now apply elem_of_nil in Hy.
    + intros g Hg. specialize (Hmax g Hg). unfold area in Hmax.
      assert (Hx_in : x ∈ x :: rest) by apply list_elem_of_here.
      pose proof (Hfit x g Hx_in Hg). pose proof (Hfit x f Hx_in Hf).
      rewrite !wrap32_small in Hmax by lia. exact Hmax.
Qed.

End Faces.

(** ** The order of the files *)

Lemma str_le_trans a b c : str_le a b -> str_le b c -> str_le a c.
Proof.
  unfold str_le, String.leb. revert b c.
  induction a as [|x a IH]; intros [|y b] [|z c]; simpl; try done.
  unfold Ascii.compare.
  destruct (N.compare_spec (N_of_ascii x) (N_of_ascii y)) as [Hxy|Hxy|Hxy];
    destruct (N.compare_spec (N_of_ascii y) (N_of_ascii z)) as [Hyz|Hyz|Hyz];
    destruct (N.compare_spec (N_of_ascii x) (N_of_ascii z)) as [Hxz|Hxz|Hxz];
    try done; try lia.
  apply IH.
Qed.

#[local] Instance str_le_transitive : Transitive str_le.
Proof. intros a b c. apply str_le_trans. Qed.

#[local] Instance str_le_total : Total str_le.
Proof. intros a b. apply String.leb_total. Qed.

Lemma sorted_keys_sorted {A} (d : gmap string A) :
  StronglySorted str_le (sorted_keys d).
Proof. apply (StronglySorted_merge_sort str_le). Qed.

Lemma sorted_keys_perm {A} (d : gmap string A) :
  sorted_keys d ≡ₚ map fst (map_to_list d).
Proof. apply merge_sort_Permutation. Qed.

Lemma sorted_keys_lookup {A} (d : gmap string A) key :
  key ∈ sorted_keys d <-> is_Some (d !! key).
Proof.
  rewrite sorted_keys_perm. split.
  - intros Hin. apply list_elem_of_fmap in Hin as [[k v] [-> Hin]].
    apply elem_of_map_to_list in Hin. simpl. eauto.
  - intros [v Hv]. apply list_elem_of_fmap. exists (key, v).
    split; [reflexivity|]. now apply elem_of_map_to_list.
Qed.

Lemma sorted_keys_NoDup {A} (d : gmap string A) : NoDup (sorted_keys d).
Proof. rewrite sorted_keys_perm. apply NoDup_fst_map_to_list. Qed.

Section Task.
Context {E : Engines}.

Lemma load_files_spec (d : gmap string (string * bytes)) keys :
  forall all_image_bytes original_images_to_save,
  (forall key, key ∈ keys -> is_Some (d !! key)) ->
  load_files d keys all_image_bytes original_images_to_save
  = ret (all_image_bytes
         ++ concat (map (fun '(filename, file_bytes) =>
                           process_file_input file_bytes filename)
                        (omap (fun key => d !! key) keys)),
         original_images_to_save ++ map snd (omap (fun key => d !! key) keys)).
Proof.
  induction keys as [|key keys IH]; intros acc orig Hkeys.
  - simpl. now rewrite !app_nil_r.
  - destruct (Hkeys key) as [[filename file_bytes] Hk]; [apply list_elem_of_here|].
    simpl. rewrite Hk. rewrite IH.
    + simpl. now rewrite <- !app_assoc.
    + intros k Hin. apply Hkeys. now apply list_elem_of_further.
Qed.

Lemma load_files_ok (d : gmap string (string * bytes)) :
  load_files d (sorted_keys d) [] [] = ret (all_images d, originals d).
Proof.
  rewrite load_files_spec; [reflexivity|].
  intros key. apply sorted_keys_lookup.
Qed.

Lemma omap_lookup_Forall2 (d : gmap string (string * bytes)) keys :
  (forall key, key ∈ keys -> is_Some (d !! key)) ->
  Forall2 (fun key file => d !! key = Some file) keys
          (omap (fun key => d !! key) keys).
Proof.
  induction keys as [|key keys IH]; intros Hkeys; [constructor|].
  destruct (Hkeys key) as [file Hk]; [apply list_elem_of_here|].
  simpl. rewrite Hk. constructor; [exact Hk|].
  apply IH. intros k Hin. apply Hkeys. now apply list_elem_of_further.
Qed.

Lemma submitted_lookup (d : gmap string (string * bytes)) :
  Forall2 (fun key file => d !! key = Some file) (sorted_keys d) (submitted d).
Proof. apply omap_lookup_Forall2. intros key. apply sorted_keys_lookup. Qed.

Lemma originals_lookup (d : gmap string (string * bytes)) :
  Forall2 (fun key file_bytes => exists filename, d !! key = Some (filename, file_bytes))
          (sorted_keys d) (originals d).
Proof.
  unfold originals. apply Forall2_fmap_r.
  eapply Forall2_impl; [apply submitted_lookup|].
  intros key [filename file_bytes] Hk. simpl. eauto.
Qed.

Lemma py_in_pure needle v : py_in needle v = ([], (py_in needle v).2).
Proof. now destruct v. Qed.

Lemma getitem_pure v key : getitem v key = ([], (getitem v key).2).
Proof. destruct v as [| | | | | |d]; try reflexivity. simpl. now destruct (d !! key). Qed.

Lemma task_body_no_images d doc_type :
  all_images d = [] -> task_body d doc_type = ([], inl NO_IMAGES).
Proof.
  intros Hnone. unfold task_body. rewrite load_files_ok, Hnone. reflexivity.
Qed.

(** The run of the task once some image was decoded. *)
Lemma task_body_images d doc_type :
  all_images d <> [] ->
  task_body d doc_type
  = match (py_in "error" (structured_of d)).2 with
    | inl e => (events_to_structuring d, inl e)
    | inr true =>
        match (getitem (structured_of d) "error").2 with
        | inl e => (events_to_structuring d, inl e)
        | inr arg => (events_to_structuring d, inl (Exception arg))
        end
    | inr false =>
        match save_processed_document doc_type
                (json_dumps (post_process_and_validate (structured_of d)))
                (originals d) (face_of d) with
        | Raises e =>
            (events_to_structuring d ++ events_after_structuring d doc_type,
             inl (Raised e))
        | Returns doc_id =>
            (events_to_structuring d ++ events_after_structuring d doc_type,
             inr ("Task Complete!"%string, doc_id))
        end
    end.
Proof.
  intros Hsome. unfold task_body. rewrite load_files_ok.
  unfold events_to_structuring, events_after_structuring, structured_of,
    raw_text_of, base64_of, face_of.
  cbv beta iota zeta delta [mbind M_bind bind ret emit raise].
  destruct (all_images d) as [|img imgs] eqn:Hall; [done|].
  set (raw := extract_text_with_paddleocr (img :: imgs)).
  set (b64 := map b64encode (img :: imgs)).
  set (sd := structure_data_with_master_prompt raw b64).
  set (face := detect_and_crop_face (img :: imgs)).
  set (json := json_dumps (post_process_and_validate sd)).
  clearbody json face sd b64 raw.
  rewrite (py_in_pure "error" sd).
  destruct ((py_in "error" sd).2) as [e|[|]]; simpl; try reflexivity.
  - rewrite (getitem_pure sd "error").
    now destruct ((getitem sd "error").2).
  - now destruct (save_processed_document doc_type json (originals d) face).
Qed.

End Task.

Section TaskClaims.
Context {E : Engines}.

Lemma render_pages_all pages jpegs : forall images_bytes,
  Forall2 (fun p jpeg => render_page p = Returns jpeg) pages jpegs ->
  render_pages pages images_bytes = images_bytes ++ map normalize_image jpegs.
Proof.
  intros acc H. revert acc.
  induction H as [|p jpeg pages jpegs Hp _ IH]; intros acc; simpl.
  - now rewrite app_nil_r.
  - rewrite Hp, IH. now rewrite <- app_assoc.
Qed.

Lemma render_pages_until pages1 p pages2 jpegs e : forall images_bytes,
  Forall2 (fun q jpeg => render_page q = Returns jpeg) pages1 jpegs ->
  render_page p = Raises e ->
  render_pages (pages1 ++ p :: pages2) images_bytes
  = images_bytes ++ map normalize_image jpegs.
Proof.
  intros acc H Hp. revert acc.
  induction H as [|q jpeg qs js Hq _ IH]; intros acc; simpl.
  - now rewrite Hp, app_nil_r.
  - rewrite Hq, IH. now rewrite <- app_assoc.
Qed.

(** C8, amended.  The files of a submission are taken in the lexicographic
    order of their keys, each key once, and the images of the files are
    concatenated in that order.  A file whose name ends in [.pdf], in any
    letter case, gives its pages in page order when they render; any other
    file gives exactly one image.  A PDF whose rendering fails raises
    nothing and gives the pages rendered before the failure: none when the
    document cannot be opened or its first page fails, the earlier pages
    when a later page fails.  The concatenation keeps what the other files
    give. *)
Theorem files_taken_in_key_order (d : gmap string (string * bytes)) :
  StronglySorted str_le (sorted_keys d)
  /\ sorted_keys d ≡ₚ map fst (map_to_list d)
  /\ Forall2 (fun key file => d !! key = Some file) (sorted_keys d) (submitted d)
  /\ load_files d (sorted_keys d) [] []
     = ret (concat (map (fun '(filename, file_bytes) =>
                           process_file_input file_bytes filename)
                        (submitted d)),
            map snd (submitted d))
  /\ (forall file_bytes filename,
        endswith ".pdf" (lower filename) = false ->
        process_file_input file_bytes filename = [normalize_image file_bytes])
  /\ (forall file_bytes filename pages jpegs,
        endswith ".pdf" (lower filename) = true ->
        fitz_open file_bytes = Returns pages ->
        Forall2 (fun p jpeg => render_page p = Returns jpeg) pages jpegs ->
        process_file_input file_bytes filename = map normalize_image jpegs)
  /\ (forall file_bytes filename e,
        endswith ".pdf" (lower filename) = true ->
        fitz_open file_bytes = Raises e ->
        process_file_input file_bytes filename = [])
  /\ (forall file_bytes filename p pages e,
        endswith ".pdf" (lower filename) = true ->
        fitz_open file_bytes = Returns (p :: pages) ->
        render_page p = Raises e ->
        process_file_input file_bytes filename = [])
  /\ (forall file_bytes filename pages1 p pages2 jpegs e,
        endswith ".pdf" (lower filename) = true ->
        fitz_open file_bytes = Returns (pages1 ++ p :: pages2) ->
        Forall2 (fun q jpeg => render_page q = Returns jpeg) pages1 jpegs ->
        render_page p = Raises e ->
        process_file_input file_bytes filename = map normalize_image jpegs).
Proof.
  split; [apply sorted_keys_sorted|].
  split; [apply sorted_keys_perm|].
  split; [apply submitted_lookup|].
  split; [apply load_files_ok|].
  unfold process_file_input. repeat split.
  - intros b fn ->. reflexivity.
  - intros b fn pages jpegs -> -> H. now rewrite (render_pages_all pages jpegs).
  - intros b fn e -> ->. reflexivity.
  - intros b fn p pages e -> -> Hp. simpl. now rewrite Hp.
  - intros b fn pages1 p pages2 jpegs e -> -> H Hp.
    now rewrite (render_pages_until pages1 p pages2 jpegs e).
Qed.

(** C9. On a successful run the record handed to the database holds, as
    its original images, one entry per submitted file: the bytes of the file
    under each key, in the lexicographic order of the keys, whatever the
    file decoded to. *)
Theorem original_files_persisted d doc_type t status doc_id :
  process_documents_task d doc_type = (t, SUCCESS status doc_id) ->
  exists json_data face_image,
    last t = Some (CallSave doc_type json_data (originals d) face_image)
    /\ save_processed_document doc_type json_data (originals d) face_image
       = Returns doc_id
    /\ Forall2 (fun key file_bytes =>
                  exists filename, d !! key = Some (filename, file_bytes))
               (sorted_keys d) (originals d)
    /\ StronglySorted str_le (sorted_keys d)
    /\ sorted_keys d ≡ₚ map fst (map_to_list d).
Proof.
  unfold process_documents_task. intros Hrun.
  destruct (decide (all_images d = [])) as [Hnone|Hsome].
  { rewrite (task_body_no_images d doc_type Hnone) in Hrun. discriminate. }
  rewrite (task_body_images d doc_type Hsome) in Hrun.
  destruct ((py_in "error" (structured_of d)).2) as [e|[|]]; [discriminate| |].
  { destruct ((getitem (structured_of d) "error").2); discriminate. }
  destruct (save_processed_document _ _ _ _) as [e|id] eqn:Hsave; [discriminate|].
  injection Hrun as <- _ <-.
  eexists _, _. split; [reflexivity|]. split; [exact Hsave|].
  split; [apply originals_lookup|].
  split; [apply sorted_keys_sorted|apply sorted_keys_perm].
Qed.

(** C5. When the files of a submission decode to no image at all, the run
    ends in FAILURE with the message of the task, and nothing has happened
    before: no OCR, no call of the structuring engine, no record saved. *)
Theorem no_image_fails_fast d doc_type :
  all_images d = [] ->
  process_documents_task d doc_type = ([], FAILURE NO_IMAGES).
Proof.
  intros Hnone. unfold process_documents_task.
  now rewrite (task_body_no_images d doc_type Hnone).
Qed.

Lemma error_record_run d doc_type sd v :
  all_images d <> [] ->
  structured_of d = VDict sd -> sd !! "error" = Some v ->
  process_documents_task d doc_type
  = (events_to_structuring d, FAILURE (Exception v)).
Proof.
  intros Hsome Hsd Hv. unfold process_documents_task.
  rewrite (task_body_images d doc_type Hsome), Hsd. simpl.
  rewrite bool_decide_true by (rewrite Hv; eauto).
  now rewrite Hv.
Qed.

(** C4, amended.  A transport error, a status from 400 to 599 and a body
    that is not JSON do not make the structuring engine raise: it returns
    the record whose [error] field is the fixed sentence followed by the
    description of the failure.  When the structuring result is a record
    with an [error] field, the run ends in FAILURE with the value of that
    field, after the call of the structuring engine and before validation,
    face detection and saving. *)
Theorem structuring_failure_aborts_run d doc_type :
  all_images d <> [] ->
  (forall e,
     requests_post (master_prompt (raw_text_of d)) (base64_of d) = Raises e ->
     structured_of d = error_record e)
  /\ (forall resp,
        requests_post (master_prompt (raw_text_of d)) (base64_of d) = Returns resp ->
        400 <= status_code resp < 600 ->
        exists e, raise_for_status resp = Some e
                  /\ structured_of d = error_record e)
  /\ (forall resp e,
        requests_post (master_prompt (raw_text_of d)) (base64_of d) = Returns resp ->
        ~ 400 <= status_code resp < 600 ->
        json_loads (body resp) = Raises e ->
        structured_of d = error_record e)
  /\ (forall e,
        structured_of d = error_record e ->
        process_documents_task d doc_type
        = (events_to_structuring d,
           FAILURE (Exception
             (VStr ("The language model failed to structure the text. Error: "
                    +:+ e)))))
  /\ (forall sd v,
        structured_of d = VDict sd -> sd !! "error" = Some v ->
        process_documents_task d doc_type
        = (events_to_structuring d, FAILURE (Exception v))).
Proof.
  intros Hsome.
  unfold structured_of at 1 2 3, structure_data_with_master_prompt.
  repeat split.
  - now intros e ->.
  - intros resp -> Hst. unfold raise_for_status.
    destruct (decide (status_code resp < 500)) as [Hlt|Hge].
    + replace ((400 <=? status_code resp) && (status_code resp <? 500))
        with true by lia.
      eexists. split; reflexivity.
    + replace ((400 <=? status_code resp) && (status_code resp <? 500))
        with false by lia.
      replace ((500 <=? status_code resp) && (status_code resp <? 600))
        with true by lia.
      eexists. split; reflexivity.
  - intros resp e -> Hst Hbody.
    assert (raise_for_status resp = None) as ->.
    { unfold raise_for_status.
      replace ((400 <=? status_code resp) && (status_code resp <? 500))
        with false by lia.
      now replace ((500 <=? status_code resp) && (status_code resp <? 600))
        with false by lia. }
    now rewrite Hbody.
  - intros e He. eapply error_record_run; [exact Hsome|exact He|].
    apply lookup_singleton_eq.
  - intros sd v. now apply error_record_run.
Qed.

(** C10. There are replies for which the structuring engine returns the
    empty record, not an error record: when the status is in the 200s and
    the body is a JSON object without the key [response], the engine parses
    the default ["{}"] and returns the empty mapping.  It has no [error]
    key, so the run goes through validation and face detection and saves a
    record whose extracted data is the empty mapping. *)
Theorem reply_without_response_key_saves_empty_record
    d doc_type resp (reply : gmap string value) doc_id :
  all_images d <> [] ->
  requests_post (master_prompt (raw_text_of d)) (base64_of d) = Returns resp ->
  200 <= status_code resp < 300 ->
  json_loads (body resp) = Returns (VDict reply) ->
  reply !! "response" = None ->
  json_loads "{}" = Returns (VDict ∅) ->
  save_processed_document doc_type (json_dumps (VDict ∅)) (originals d) (face_of d)
  = Returns doc_id ->
  structured_of d = VDict ∅
  /\ (∅ : gmap string value) !! "error" = None
  /\ process_documents_task d doc_type
     = (events_to_structuring d ++ events_after_structuring d doc_type,
        SUCCESS "Task Complete!" doc_id)
  /\ last (events_after_structuring d doc_type)
     = Some (CallSave doc_type (json_dumps (VDict ∅)) (originals d) (face_of d)).
Proof.
  intros Hsome Hpost Hst Hbody Hkey Hempty Hsave.
  assert (Hsd : structured_of d = VDict ∅).
  { unfold structured_of, structure_data_with_master_prompt. rewrite Hpost.
    assert (raise_for_status resp = None) as ->.
    { unfold raise_for_status.
      replace ((400 <=? status_code resp) && (status_code resp <? 500))
        with false by lia.
      now replace ((500 <=? status_code resp) && (status_code resp <? 600))
        with false by lia. }
    rewrite Hbody, Hkey. simpl. now rewrite Hempty. }
  assert (Hpv : post_process_and_validate (VDict ∅) = VDict ∅).
  { unfold post_process_and_validate. now rewrite map_fold_empty. }
  split; [exact Hsd|]. split; [apply lookup_empty|]. split.
  - unfold process_documents_task.
    rewrite (task_body_images d doc_type Hsome), Hsd, Hpv, Hsave. simpl.
    now rewrite bool_decide_false
      by (rewrite lookup_empty; intros [? ?]; discriminate).
  - unfold events_after_structuring. rewrite Hsd, Hpv. reflexivity.
Qed.

End TaskClaims.

(** ** The statements on the stand-in engines *)

Lemma no_image_fails_fast_witness :
  @process_documents_task (demo_engines (reply_of 200 "OK" BODY_DONE))
    broken_pdf "passport"
  = ([], FAILURE NO_IMAGES).
Proof.
  apply (@no_image_fails_fast (demo_engines (reply_of 200 "OK" BODY_DONE))
           broken_pdf "passport").
  vm_compute. reflexivity.
Defined.

Lemma largest_face_witness :
  match @detect_and_crop_face (demo_engines (reply_of 200 "OK" BODY_DONE))
          [[Byte.x01]] with
  | None => False
  | Some crop => crop = [Byte.x01]
  end.
Proof.
  pose proof (@largest_face_of_first_image_with_faces
                (demo_engines (reply_of 200 "OK" BODY_DONE)) [[Byte.x01]]) as H.
  assert (Hfit : forall img_bytes g,
            img_bytes ∈ [[Byte.x01]] ->
            g ∈ @detections (demo_engines (reply_of 200 "OK" BODY_DONE)) img_bytes ->
            0 <= bw g * bh g < 2 ^ 31).
  { intros b g Hb Hg. apply list_elem_of_singleton in Hb as ->.
    change (g ∈ demo_faces) in Hg. unfold demo_faces in Hg.
    apply elem_of_cons in Hg as [->|Hg];
      [|apply list_elem_of_singleton in Hg as ->]; simpl; lia. }
  specialize (H Hfit). clear Hfit.
  destruct (@detect_and_crop_face (demo_engines (reply_of 200 "OK" BODY_DONE))
              [[Byte.x01]]) as [crop|] eqn:Hd.
  - vm_compute in Hd. now injection Hd as <-.
  - vm_compute in Hd. discriminate Hd.
Defined.

Lemma original_files_persisted_witness :
  exists json_data face_image,
    last (@process_documents_task (demo_engines (reply_of 200 "OK" BODY_DONE))
            one_jpeg "passport").1
    = Some (CallSave "passport" json_data
              (@originals one_jpeg) face_image)
    /\ originals one_jpeg = [[Byte.x01]].
Proof.
  destruct (@original_files_persisted (demo_engines (reply_of 200 "OK" BODY_DONE))
              one_jpeg "passport"
              (@process_documents_task (demo_engines (reply_of 200 "OK" BODY_DONE))
                 one_jpeg "passport").1
              "Task Complete!" 1)
    as (json_data & face_image & Hlast & _).
  { vm_compute. reflexivity. }
  exists json_data, face_image. split; [exact Hlast|].
  vm_compute. reflexivity.
Defined.

Lemma structuring_failure_aborts_run_witness :
  @process_documents_task (demo_engines (Raises "Connection refused"))
    one_jpeg "passport"
  = (@events_to_structuring (demo_engines (Raises "Connection refused")) one_jpeg,
     FAILURE (Exception
       (VStr ("The language model failed to structure the text. Error: "
              +:+ "Connection refused")))).
Proof.
  destruct (@structuring_failure_aborts_run
              (demo_engines (Raises "Connection refused")) one_jpeg "passport")
    as (Hraise & _ & _ & Hrun & _).
  { vm_compute. discriminate. }
  apply Hrun, Hraise. reflexivity.
Defined.

Lemma reply_without_response_key_witness :
  @structured_of (demo_engines (reply_of 200 "OK" BODY_DONE)) one_jpeg = VDict ∅
  /\ (@process_documents_task (demo_engines (reply_of 200 "OK" BODY_DONE))
        one_jpeg "passport").2
     = SUCCESS "Task Complete!" 1.
Proof.
  destruct (@reply_without_response_key_saves_empty_record
              (demo_engines (reply_of 200 "OK" BODY_DONE)) one_jpeg "passport"
              {| status_code := 200; reason := "OK";
                 url := OLLAMA_API_URL; body := BODY_DONE |}
              {[ "done" := VBool true ]} 1)
    as (Hsd & _ & Hrun & _).
  - vm_compute. discriminate.
  - reflexivity.
  - simpl. lia.
  - reflexivity.
  - reflexivity.
  - reflexivity.
  - reflexivity.
  - split; [exact Hsd|]. now rewrite Hrun.
Defined.

(** C4 as stated fails on a status outside the 200s that [raise_for_status]
    lets through: the reply 300 with a well-formed body is parsed like a
    success, the result has no [error] key, and the run succeeds. *)
Lemma non_2xx_reply_gives_no_error_record :
  let E := demo_engines (reply_of 300 "Multiple Choices" BODY_EMPTY_RESPONSE) in
  exists resp,
    requests_post (master_prompt (raw_text_of one_jpeg)) (base64_of one_jpeg)
    = Returns resp
    /\ ~ 200 <= status_code resp < 300
    /\ structured_of one_jpeg = VDict ∅
    /\ (∅ : gmap string value) !! "error" = None
    /\ (process_documents_task one_jpeg "passport").2
       = SUCCESS "Task Complete!" 1.
Proof.
  intros E. eexists. split; [reflexivity|]. split; [simpl; lia|].
  split; [reflexivity|]. split; [reflexivity|].
  vm_compute. reflexivity.
Qed.

(* ===================================================================== *)
(** * Part III: further properties of the pipeline                        *)
(* ===================================================================== *)

Section MorePostValidation.
Context {E : Engines}.

Lemma normalized_other key v :
  contains "date" (lower key) = false \/ (forall s, v <> VStr s) ->
  normalized key v = v.
Proof.
  unfold normalized, reformatted. intros [Hk|Hv].
  - destruct v; try reflexivity. now rewrite Hk.
  - destruct v as [| | | |s| |]; try reflexivity. now destruct (Hv s).
Qed.

(** Post-validation keeps the keys of the record, and leaves alone every
    field whose name does not contain [date] (in any letter case) and every
    field whose value is not a string: numbers, [null], lists and nested
    records are never looked into. *)
Theorem post_validation_keeps_other_fields (d : gmap string value) :
  exists d',
    post_process_and_validate (VDict d) = VDict d'
    /\ dom d' = dom d
    /\ forall key v,
         d !! key = Some v ->
         contains "date" (lower key) = false \/ (forall s, v <> VStr s) ->
         d' !! key = Some v.
Proof.
  destruct (post_process_lookup d) as (d' & Hpost & Hd').
  exists d'. split; [exact Hpost|]. split.
  - apply set_eq. intros key. rewrite !elem_of_dom, Hd'.
    apply fmap_is_Some.
  - intros key v Hv Hother. rewrite Hd', Hv. simpl.
    now rewrite normalized_other.
Qed.

(** Every field post-validation changes held a string that one of the five
    formats parses, and holds afterwards the year of the parsed date followed
    by the literal text [-MM-DD]: the month and the day are never written. *)
Theorem changed_field_is_year_and_literal (d : gmap string value) :
  exists d',
    post_process_and_validate (VDict d) = VDict d'
    /\ forall key v,
         d !! key = Some v ->
         d' !! key = Some v
         \/ exists s fmt dt,
              v = VStr s /\ In fmt DATE_FORMATS /\ strptime s fmt = Some dt
              /\ 1 <= year dt <= 9999
              /\ d' !! key
                 = Some (VStr (fmt_year pad_year (year dt) +:+ "-MM-DD")).
Proof.
  destruct (post_process_lookup d) as (d' & Hpost & Hd').
  exists d'. split; [exact Hpost|].
  intros key v Hv. rewrite Hd', Hv. simpl. unfold normalized.
  destruct (reformatted key v) as [v'|] eqn:Hr; [right|now left].
  unfold reformatted in Hr. destruct v as [| | | |s| |]; try discriminate.
  destruct (contains "date" (lower key)); [|discriminate].
  destruct (try_formats s DATE_FORMATS) as [out|] eqn:Ht; [|discriminate].
  injection Hr as <-.
  apply try_formats_Some in Ht as (fmt & dt & Hin & Hp & ->).
  exists s, fmt, dt. repeat split; auto; try (apply (strptime_year_range s fmt dt Hp)).
Qed.

End MorePostValidation.

Section MoreStages.
Context {E : Engines}.

(** The raw text of a batch followed by another is the raw text of the
    first followed by the blocks of the second, whose page numbers go on
    from where the first batch stopped. *)
Theorem raw_text_of_two_batches (first second : list bytes) :
  extract_text_with_paddleocr (first ++ second)
  = extract_text_with_paddleocr first
    +:+ concat_all (imap (fun j img =>
                            newline +:+ page_marker (length first + j + 1)
                            +:+ newline +:+ page_text img) second).
Proof.
  assert (Hloop : forall imgs i acc,
            extract_loop i (imgs ++ second) acc
            = extract_loop (i + length imgs) second (extract_loop i imgs acc)).
  { induction imgs as [|img imgs IH]; intros i acc; simpl.
    - now rewrite Nat.add_0_r.
    - rewrite IH. f_equal. lia. }
  unfold extract_text_with_paddleocr at 1. rewrite Hloop, extract_loop_blocks.
  f_equal. apply (f_equal concat_all), imap_ext. intros j img _. simpl.
  unfold separator, newline. now rewrite !append_cons, !append_assoc.
Qed.

(** Scanning two batches of images for a face gives the crop of the first
    batch when it has one, whatever the second holds, and the result of the
    second batch otherwise. *)
Theorem face_scan_stops_at_first_crop (first second : list bytes) :
  detect_and_crop_face (first ++ second)
  = match detect_and_crop_face first with
    | Some crop => Some crop
    | None => detect_and_crop_face second
    end.
Proof.
  induction first as [|x first IH]; [reflexivity|].
  simpl.
  destruct (imdecode x) as [e|[img|]]; try exact IH.
  destruct (detect_faces img) as [e|faces]; try exact IH.
  destruct (0 <? length faces)%nat; try exact IH.
  destruct (sorted_by_area_desc faces); [exact IH|reflexivity].
Qed.

(** The structuring engine never raises, and its result is of one of two
    kinds: an error record, or the value parsed from the text under the key
    [response] of the reply (the text ["{}"] when the key is absent), which
    takes a status outside 400..599 and a body that is a JSON object. *)
Theorem structuring_result_cases (raw_text : string) (base64_images : list string) :
  (exists e, structure_data_with_master_prompt raw_text base64_images
             = error_record e)
  \/ (exists resp reply s,
        requests_post (master_prompt raw_text) base64_images = Returns resp
        /\ ~ 400 <= status_code resp < 600
        /\ json_loads (body resp) = Returns (VDict reply)
        /\ default (VStr "{}") (reply !! "response") = VStr s
        /\ json_loads s
           = Returns (structure_data_with_master_prompt raw_text base64_images)).
Proof.
  unfold structure_data_with_master_prompt.
  destruct (requests_post (master_prompt raw_text) base64_images) as [e|resp];
    [left; eexists; reflexivity|].
  destruct (raise_for_status resp) as [e|] eqn:Hst; [left; eexists; reflexivity|].
  assert (Hcode : ~ 400 <= status_code resp < 600).
  { unfold raise_for_status in Hst.
    destruct ((400 <=? status_code resp) && (status_code resp <? 500)) eqn:H4;
      [discriminate|].
    destruct ((500 <=? status_code resp) && (status_code resp <? 600)) eqn:H5;
      [discriminate|]. lia. }
  destruct (json_loads (body resp)) as [e|v] eqn:Hbody; [left; eexists; reflexivity|].
  destruct v as [| | | | | |reply]; try (left; eexists; reflexivity).
  destruct (default (VStr "{}") (reply !! "response")) as [| | | |s| |] eqn:Hr;
    try (left; eexists; reflexivity).
  destruct (json_loads s) as [e|v] eqn:Hs; [left; eexists; reflexivity|].
  right. exists resp, reply, s. auto.
Qed.

End MoreStages.

Section MoreTask.
Context {E : Engines}.

(** A PDF of which a page does not render gives the pages before that
    page, normalized and in page order, and none of the pages after it;
    nothing is raised. *)
Theorem pdf_keeps_pages_before_failure
    file_bytes filename pages1 p pages2 jpegs e :
  endswith ".pdf" (lower filename) = true ->
  fitz_open file_bytes = Returns (pages1 ++ p :: pages2) ->
  Forall2 (fun q jpeg => render_page q = Returns jpeg) pages1 jpegs ->
  render_page p = Raises e ->
  process_file_input file_bytes filename = map normalize_image jpegs.
Proof.
  intros Hpdf Hopen Hpages Hp. unfold process_file_input.
  rewrite Hpdf, Hopen.
  assert (Hgen : forall acc,
            render_pages (pages1 ++ p :: pages2) acc
            = acc ++ map normalize_image jpegs).
  { clear Hopen. induction Hpages as [|q jpeg qs js Hq _ IH]; intros acc; simpl.
    - now rewrite Hp, app_nil_r.
    - rewrite Hq, IH. now rewrite <- app_assoc. }
  apply Hgen.
Qed.



(** Every run has one of three courses.  With no image it fails at once.
    Otherwise it runs OCR and the structuring engine and then either fails
    at the test for an error, with nothing validated, detected or saved, or
    goes through validation and face detection to exactly one insert, its
    last event; it ends in SUCCESS when the insert returns and in FAILURE
    with the database's message when the insert raises.  So a record is
    handed to the database at most once, and never by a run that failed
    earlier. *)
Theorem run_courses d doc_type :
  exists t st,
    process_documents_task d doc_type = (t, st)
    /\ ((all_images d = [] /\ t = [] /\ st = FAILURE NO_IMAGES)
        \/ (all_images d <> [] /\ t = events_to_structuring d
            /\ (py_in "error" (structured_of d)).2 <> inr false
            /\ exists e, st = FAILURE e)
        \/ (all_images d <> []
            /\ t = events_to_structuring d ++ events_after_structuring d doc_type
            /\ (py_in "error" (structured_of d)).2 = inr false
            /\ ((exists doc_id,
                   save_processed_document doc_type
                     (json_dumps (post_process_and_validate (structured_of d)))
                     (originals d) (face_of d) = Returns doc_id
                   /\ st = SUCCESS "Task Complete!" doc_id)
                \/ (exists e,
                      save_processed_document doc_type
                        (json_dumps (post_process_and_validate (structured_of d)))
                        (originals d) (face_of d) = Raises e
                      /\ st = FAILURE (Raised e))))).
Proof.
  unfold process_documents_task.
  destruct (decide (all_images d = [])) as [Hnone|Hsome].
  { rewrite (task_body_no_images d doc_type Hnone).
    eexists _, _. split; [reflexivity|]. left. auto. }
  rewrite (task_body_images d doc_type Hsome).
  destruct ((py_in "error" (structured_of d)).2) as [e|[|]] eqn:Hin.
  - eexists _, _. split; [reflexivity|]. right; left.
    split; [exact Hsome|]. split; [reflexivity|]. split; [discriminate|eauto].
  - destruct ((getitem (structured_of d) "error").2) as [e|arg];
      (eexists _, _; split; [reflexivity|]; right; left;
       split; [exact Hsome|]; split; [reflexivity|];
       split; [discriminate|eauto]).
  - destruct (save_processed_document _ _ _ _) as [e|doc_id] eqn:Hsave;
      (eexists _, _; split; [reflexivity|]; right; right;
       split; [exact Hsome|]; split; [reflexivity|]; split; [reflexivity|]).
    + right. eauto.
    + left. eauto.
Qed.


(** A structuring result that is not a container makes the run fail with a
    [TypeError] at the test for an error, before validation: so does a JSON
    number, boolean or [null].  A JSON string or list passes the test
    unless it holds ["error"] (as a substring, as an element), and then
    fails with a [TypeError] at the subscript. *)
Theorem non_record_result_fails_with_TypeError d doc_type :
  all_images d <> [] ->
  (structured_of d = VNull
   \/ (exists b, structured_of d = VBool b)
   \/ (exists z, structured_of d = VInt z)
   \/ (exists q, structured_of d = VFloat q)
   \/ (exists s, structured_of d = VStr s /\ contains "error" s = true)
   \/ (exists l, structured_of d = VList l
                 /\ existsb (is_str "error") l = true)) ->
  process_documents_task d doc_type
  = (events_to_structuring d, FAILURE TypeError).
Proof.
  intros Hsome Hkind. unfold process_documents_task.
  rewrite (task_body_images d doc_type Hsome).
  destruct Hkind as [->|[[b ->]|[[z ->]|[[q ->]|[[s [-> Hs]]|[l [-> Hl]]]]]]];
    simpl; try reflexivity.
  - now rewrite Hs.
  - now rewrite Hl.
Qed.

End MoreTask.

Lemma pdf_keeps_pages_before_failure_witness :
  @process_file_input
    (lab_engines (reply_of 200 "OK" BODY_DONE) demo_loads render_but_zero)
    [Byte.x01; Byte.x02; Byte.x00; Byte.x03] "scan.pdf"
  = [[Byte.x01]; [Byte.x02]].
Proof.
  apply (@pdf_keeps_pages_before_failure
           (lab_engines (reply_of 200 "OK" BODY_DONE) demo_loads render_but_zero)
           [Byte.x01; Byte.x02; Byte.x00; Byte.x03] "scan.pdf"
           [[Byte.x01]; [Byte.x02]] [Byte.x00] [[Byte.x03]]
           [[Byte.x01]; [Byte.x02]] "cannot render page").
  - reflexivity.
  - reflexivity.
  - repeat constructor.
  - reflexivity.
Defined.


Lemma non_record_result_witness :
  @process_documents_task
    (lab_engines (reply_of 200 "OK" BODY_NUMBER) number_loads Returns)
    one_jpeg "passport"
  = (@events_to_structuring
       (lab_engines (reply_of 200 "OK" BODY_NUMBER) number_loads Returns) one_jpeg,
     FAILURE TypeError).
Proof.
  apply (@non_record_result_fails_with_TypeError
           (lab_engines (reply_of 200 "OK" BODY_NUMBER) number_loads Returns)
           one_jpeg "passport").
  - vm_compute. discriminate.
  - right. right. left. exists 5. reflexivity.
Defined.

(** ** The web routes *)

#[local] Instance str_le_antisymm : AntiSymm eq str_le.
Proof. intros a b. apply String.leb_antisym. Qed.

#[local] Instance file_key_inj : Inj eq eq file_key.
Proof.
  intros i j H. unfold file_key in H.
  apply (inj (String.append "file_")) in H. now apply (inj pretty) in H.
Qed.

Lemma upload_keys (files : list upload) :
  (reverse (imap (fun i f => (file_key i, upload_entry f)) files)).*1
  = reverse (file_key <$> seq 0 (length files)).
Proof.
  rewrite fmap_reverse, fmap_imap. f_equal.
  rewrite <- imap_seq_0. apply imap_ext. reflexivity.
Qed.

Lemma upload_keys_NoDup (files : list upload) :
  NoDup (reverse (imap (fun i f => (file_key i, upload_entry f)) files)).*1.
Proof.
  rewrite upload_keys, reverse_Permutation.
  apply NoDup_fmap_2; [apply _|apply NoDup_seq].
Qed.

(** Every uploaded part is in the dictionary, under the key of its
    position. *)
Lemma make_file_contents_dict_lookup (files : list upload) i f :
  files !! i = Some f ->
  make_file_contents_dict files !! file_key i = Some (upload_entry f).
Proof.
  intros Hi. unfold make_file_contents_dict.
  apply elem_of_list_to_map; [apply upload_keys_NoDup|].
  apply elem_of_reverse, elem_of_lookup_imap. eauto.
Qed.

Lemma make_file_contents_dict_keys (files : list upload) :
  sorted_keys (make_file_contents_dict files)
  ≡ₚ file_key <$> seq 0 (length files).
Proof.
  rewrite sorted_keys_perm. unfold make_file_contents_dict.
  change (map fst ?l) with (l.*1).
  rewrite (map_to_list_to_map _ (upload_keys_NoDup files)).
  rewrite upload_keys. apply reverse_Permutation.
Qed.

Lemma ten_keys_sorted : StronglySorted str_le (file_key <$> seq 0 10).
Proof. apply (bool_decide_unpack _). vm_compute. reflexivity. Qed.

Lemma few_keys_sorted n :
  (n <= 10)%nat -> StronglySorted str_le (file_key <$> seq 0 n).
Proof.
  intros Hn. pose proof ten_keys_sorted as H.
  replace 10%nat with (n + (10 - n))%nat in H by lia.
  rewrite seq_app, fmap_app in H. eapply StronglySorted_app_1_l, H.
Qed.

Lemma omap_upload_keys (d : gmap string (string * bytes)) (files : list upload) :
  forall j,
  (forall i f, files !! i = Some f -> d !! file_key (j + i) = Some (upload_entry f)) ->
  omap (fun key => d !! key) (file_key <$> seq j (length files))
  = upload_entry <$> files.
Proof.
  induction files as [|f files IH]; intros j Hd; [reflexivity|].
  simpl. rewrite <- (Nat.add_0_r j) at 1. rewrite (Hd 0%nat f eq_refl).
  f_equal. apply IH. intros i g Hi.
  replace (S j + i)%nat with (j + S i)%nat by lia. now apply Hd.
Qed.

Section WebRoutes.
Context {E : Engines}.

(** Up to ten uploaded parts are taken by the task in the order of the
    upload: the images are those of the parts in that order, and the
    originals are the bytes of the parts in that order. *)
Theorem ten_uploads_keep_their_order (files : list upload) :
  (length files <= 10)%nat ->
  submitted (make_file_contents_dict files) = upload_entry <$> files
  /\ all_images (make_file_contents_dict files)
     = concat (map (fun f => process_file_input (upload_bytes f) (upload_filename f))
                   files)
  /\ originals (make_file_contents_dict files) = map upload_bytes files.
Proof.
  intros Hn.
  assert (Hkeys : sorted_keys (make_file_contents_dict files)
                  = file_key <$> seq 0 (length files)).
  { apply (StronglySorted_unique str_le).
    - apply sorted_keys_sorted.
    - now apply few_keys_sorted.
    - apply make_file_contents_dict_keys. }
  assert (Hsub : submitted (make_file_contents_dict files) = upload_entry <$> files).
  { unfold submitted. rewrite Hkeys. apply omap_upload_keys.
    intros i f Hi. now apply make_file_contents_dict_lookup. }
  split; [exact Hsub|]. unfold all_images, originals. rewrite Hsub. split.
  - f_equal. rewrite <- list_fmap_compose. reflexivity.
  - rewrite <- list_fmap_compose. reflexivity.
Qed.

End WebRoutes.

(** In a sorted list, of two members the strictly smaller one comes first. *)
Lemma sorted_places (l : list string) a b :
  StronglySorted str_le l -> a ∈ l -> b ∈ l -> ~ str_le b a ->
  exists l1 l2 l3, l = l1 ++ a :: l2 ++ b :: l3.
Proof.
  intros Hs Ha Hb Hba.
  apply list_elem_of_split in Ha as (l1 & r & ->).
  apply elem_of_app in Hb as [Hb|Hb].
  - destruct Hba.
    apply (StronglySorted_app_1_elem_of str_le l1 (a :: r) b a Hs Hb).
    apply list_elem_of_here.
  - apply elem_of_cons in Hb as [->|Hb].
    + destruct Hba. destruct (String.leb_total a a); assumption.
    + apply list_elem_of_split in Hb as (l2 & l3 & ->). eauto.
Qed.

(** From the eleventh uploaded part on, the order of the upload is lost:
    the key [file_10] sorts before [file_2], so the task takes the eleventh
    part, with its images and its original bytes, before the third. *)
Theorem eleventh_upload_overtakes_third (files : list upload) :
  (10 < length files)%nat ->
  exists third eleventh before between after,
    files !! 2%nat = Some third
    /\ files !! 10%nat = Some eleventh
    /\ submitted (make_file_contents_dict files)
       = before ++ upload_entry eleventh :: between ++ upload_entry third :: after.
Proof.
  intros Hn.
  destruct (lookup_lt_is_Some_2 files 2) as [third H2]; [lia|].
  destruct (lookup_lt_is_Some_2 files 10) as [eleventh H10]; [lia|].
  pose proof (make_file_contents_dict_lookup files 2 third H2) as Hk2.
  pose proof (make_file_contents_dict_lookup files 10 eleventh H10) as Hk10.
  destruct (sorted_places (sorted_keys (make_file_contents_dict files))
              (file_key 10) (file_key 2)) as (l1 & l2 & l3 & Hkeys).
  - apply sorted_keys_sorted.
  - apply sorted_keys_lookup. eauto.
  - apply sorted_keys_lookup. eauto.
  - unfold str_le. now vm_compute.
  - exists third, eleventh. unfold submitted. rewrite Hkeys.
    exists (omap (fun key => make_file_contents_dict files !! key) l1),
           (omap (fun key => make_file_contents_dict files !! key) l2),
           (omap (fun key => make_file_contents_dict files !! key) l3).
    split; [exact H2|]. split; [exact H10|].
    rewrite omap_app. simpl. rewrite Hk10. f_equal. f_equal.
    rewrite omap_app. simpl. now rewrite Hk2.
Qed.

(** A route starts a run only for a request with at least one part that has
    a file name; the page route also wants a document type that is not
    empty, the API route takes [Unknown] when none is given.  The dictionary
    of the run has an entry for every part of the request, also for the
    parts without a name, under the key of its position. *)
Theorem dispatched_submissions (files : list upload) d doc_type :
  (forall form_doc_type,
     index_post form_doc_type files = Dispatched d doc_type ->
     form_doc_type = Some doc_type /\ doc_type <> EmptyString)
  /\ (forall files_part form_doc_type,
        api_extract files_part form_doc_type = Dispatched d doc_type ->
        files_part = Some files ->
        doc_type = default "Unknown"%string form_doc_type)
  /\ (forall form_doc_type,
        index_post form_doc_type files = Dispatched d doc_type
        \/ api_extract (Some files) form_doc_type = Dispatched d doc_type ->
        (exists f, f ∈ files /\ upload_filename f <> EmptyString)
        /\ d = make_file_contents_dict files
        /\ forall i f, files !! i = Some f ->
                       d !! file_key i = Some (upload_entry f)).
Proof.
  assert (Hnamed : all_unnamed files = false ->
                   exists f, f ∈ files /\ upload_filename f <> EmptyString).
  { unfold all_unnamed. intros Hall.
    induction files as [|f fs IH]; [discriminate|].
    simpl in Hall. destruct (String.eqb_spec (upload_filename f) "") as [He|Hne].
    - destruct (IH Hall) as (g & Hg & Hgn). exists g. split; [|exact Hgn].
      now apply list_elem_of_further.
    - exists f. split; [apply list_elem_of_here|exact Hne]. }
  split; [|split].
  - intros form_doc_type. unfold index_post.
    destruct form_doc_type as [s|]; simpl; [|discriminate].
    destruct (String.eqb_spec s "") as [->|Hs]; simpl; [discriminate|].
    destruct (falsy_list files || all_unnamed files); [discriminate|].
    intros [= _ <-]. auto.
  - intros files_part form_doc_type Hd ->. unfold api_extract in Hd.
    destruct (falsy_list files || all_unnamed files); [discriminate|].
    now injection Hd as _ <-.
  - intros form_doc_type Hd.
    assert (Hok : all_unnamed files = false /\ d = make_file_contents_dict files).
    { destruct Hd as [Hd|Hd].
      - unfold index_post in Hd.
        destruct (falsy_str form_doc_type); [discriminate|].
        destruct (falsy_list files); [discriminate|]. simpl in Hd.
        destruct (all_unnamed files); [discriminate|].
        injection Hd as <- _. auto.
      - unfold api_extract in Hd.
        destruct (falsy_list files); [discriminate|]. simpl in Hd.
        destruct (all_unnamed files); [discriminate|].
        injection Hd as <- _. auto. }
    destruct Hok as [Hall ->]. split; [now apply Hnamed|]. split; [reflexivity|].
    intros i f. apply make_file_contents_dict_lookup.
Qed.

Lemma ten_uploads_witness :
  @originals (make_file_contents_dict (take 3 eleven_uploads))
  = [[Byte.x00]; [Byte.x01]; [Byte.x02]].
Proof.
  destruct (@ten_uploads_keep_their_order
              (demo_engines (reply_of 200 "OK" BODY_DONE))
              (take 3 eleven_uploads)) as (_ & _ & ->).
  - simpl. lia.
  - reflexivity.
Defined.

Lemma eleventh_upload_witness :
  exists before between after,
    submitted (make_file_contents_dict eleven_uploads)
    = before ++ ("page.jpg"%string, [Byte.x0a]) :: between
      ++ ("page.jpg"%string, [Byte.x02]) :: after.
Proof.
  destruct (eleventh_upload_overtakes_third eleven_uploads)
    as (third & eleventh & before & between & after & H2 & H10 & Hs).
  - simpl. lia.
  - injection H2 as <-. injection H10 as <-. eauto.
Defined.

(** ** A date in ISO form read back *)

Lemma pretty_N_char_value k :
  (k < 10)%N ->
  is_digit (pretty_N_char k) = true /\ digit_val (pretty_N_char k) = Z.of_N k.
Proof.
  intros Hk.
  assert (k = 0 \/ k = 1 \/ k = 2 \/ k = 3 \/ k = 4 \/ k = 5 \/ k = 6 \/ k = 7
          \/ k = 8 \/ k = 9)%N as Hcases by lia.
  repeat destruct Hcases as [->|Hcases]; try subst k; split; reflexivity.
Qed.

Lemma four_digits_value (x : N) :
  (1000 <= x <= 9999)%N ->
  1000 * Z.of_N ((((x / 10) / 10) / 10) mod 10)
  + 100 * Z.of_N (((x / 10) / 10) mod 10)
  + 10 * Z.of_N ((x / 10) mod 10) + Z.of_N (x mod 10) = Z.of_N x.
Proof.
  intros Hx. rewrite !N2Z.inj_mod, !N2Z.inj_div. change (Z.of_N 10) with 10.
  assert (Hz : 1000 <= Z.of_N x <= 9999) by lia.
  generalize dependent (Z.of_N x). intros z Hz.
  Z.div_mod_to_equations. lia.
Qed.

Lemma fmt_year_four pad y :
  1000 <= y <= 9999 ->
  exists a b c e,
    fmt_year pad y = String a (String b (String c (String e EmptyString)))
    /\ is_digit a && is_digit b && is_digit c && is_digit e = true
    /\ 1000 * digit_val a + 100 * digit_val b + 10 * digit_val c + digit_val e = y.
Proof.
  intros Hy. destruct y as [|p|p]; try lia.
  set (x := N.pos p).
  assert (Hx : (1000 <= x <= 9999)%N) by (unfold x; lia).
  assert (Hpretty : pretty (Z.pos p)
            = String (pretty_N_char (((x / 10) / 10) / 10 mod 10))
                (String (pretty_N_char ((x / 10) / 10 mod 10))
                   (String (pretty_N_char (x / 10 mod 10))
                      (String (pretty_N_char (x mod 10)) EmptyString)))).
  { unfold pretty, pretty_Z, pretty, pretty_positive, pretty, pretty_N.
    fold x. case_decide; [lia|].
    rewrite (pretty_N_go_step x)
      by (zify; Z.div_mod_to_equations; lia).
    rewrite (pretty_N_go_step (x / 10))
      by (zify; Z.div_mod_to_equations; lia).
    rewrite (pretty_N_go_step ((x / 10) / 10))
      by (zify; Z.div_mod_to_equations; lia).
    rewrite (pretty_N_go_step (((x / 10) / 10) / 10))
      by (zify; Z.div_mod_to_equations; lia).
    replace ((((x / 10) / 10) / 10) / 10)%N with 0%N
      by (zify; Z.div_mod_to_equations; lia).
    apply pretty_N_go_0. }
  destruct (pretty_N_char_value ((((x / 10) / 10) / 10) mod 10)) as [Ha Va];
    [apply N.mod_lt; lia|].
  destruct (pretty_N_char_value (((x / 10) / 10) mod 10)) as [Hb Vb];
    [apply N.mod_lt; lia|].
  destruct (pretty_N_char_value ((x / 10) mod 10)) as [Hc Vc];
    [apply N.mod_lt; lia|].
  destruct (pretty_N_char_value (x mod 10)) as [He Ve];
    [apply N.mod_lt; lia|].
  eexists _, _, _, _. split; [|split].
  - unfold fmt_year. rewrite Hpretty. destruct pad; reflexivity.
  - now rewrite Ha, Hb, Hc, He.
  - rewrite Va, Vb, Vc, Ve. change (Z.pos p) with (Z.of_N x).
    now apply four_digits_value.
Qed.

Lemma re_match_dash p f rest :
  re_match (Lit "-" :: p) f (String "-" rest) = re_match p f rest.
Proof. rewrite re_match_cons. simpl. apply app_nil_r. Qed.

Lemma re_match_year p f a b c e rest :
  is_digit a && is_digit b && is_digit c && is_digit e = true ->
  re_match (Dir "Y" :: p) f (String a (String b (String c (String e rest))))
  = re_match p
      (set_Y f (1000 * digit_val a + 100 * digit_val b + 10 * digit_val c
                + digit_val e))
      rest.
Proof.
  intros Hdig. rewrite re_match_cons. simpl re_item. unfold re_Y.
  rewrite Hdig. simpl. apply app_nil_r.
Qed.

Lemma month_cases m :
  1 <= m <= 12 -> In m [1; 2; 3; 4; 5; 6; 7; 8; 9; 10; 11; 12].
Proof. intros H. simpl. lia. Qed.

Lemma day_cases d :
  1 <= d <= 31 ->
  In d [1; 2; 3; 4; 5; 6; 7; 8; 9; 10; 11; 12; 13; 14; 15; 16; 17; 18; 19; 20;
        21; 22; 23; 24; 25; 26; 27; 28; 29; 30; 31].
Proof. intros H. simpl. lia. Qed.

Lemma re_match_month m p f rest :
  1 <= m <= 12 ->
  exists others,
    re_match (Dir "m" :: p) f (zfill 2 (pretty m) +:+ rest)
    = re_match p (set_m f m) rest ++ others.
Proof.
  intros Hm. apply month_cases in Hm. rewrite re_match_cons.
  simpl in Hm. repeat destruct Hm as [<-|Hm]; try destruct Hm;
    (eexists; match goal with
              | |- context [zfill 2 (pretty ?v)] =>
                  let s := eval vm_compute in (zfill 2 (pretty v)) in
                  change (zfill 2 (pretty v)) with s
              end; reflexivity).
Qed.

Lemma re_match_day d f :
  1 <= d <= 31 ->
  exists others,
    re_match [Dir "d"] f (zfill 2 (pretty d)) = (set_d f d, EmptyString) :: others.
Proof.
  intros Hd. apply day_cases in Hd. rewrite re_match_cons.
  simpl in Hd. repeat destruct Hd as [<-|Hd]; try destruct Hd;
    (eexists; match goal with
              | |- context [zfill 2 (pretty ?v)] =>
                  let s := eval vm_compute in (zfill 2 (pretty v)) in
                  change (zfill 2 (pretty v)) with s
              end; reflexivity).
Qed.

(** A calendar date of a year of four digits, written with the format
    [%Y-%m-%d], is read back as the same date by [strptime] with that
    format. *)
Theorem iso_text_round_trip pad y m d :
  1000 <= y <= 9999 -> 1 <= m <= 12 -> 1 <= d <= days_in_month y m ->
  strptime (strftime pad {| year := y; month := m; day := d |} "%Y-%m-%d")
           "%Y-%m-%d"
  = Some {| year := y; month := m; day := d |}.
Proof.
  intros Hy Hm Hd.
  assert (Hd31 : 1 <= d <= 31).
  { unfold days_in_month in Hd. repeat case_match; lia. }
  change (strftime pad {| year := y; month := m; day := d |} "%Y-%m-%d")
    with (fmt_year pad y
          +:+ String "-" (zfill 2 (pretty m)
                          +:+ String "-" (zfill 2 (pretty d) +:+ EmptyString))).
  rewrite append_nil_r.
  destruct (fmt_year_four pad y Hy) as (a & b & c & e & -> & Hdig & Hval).
  unfold strptime.
  change (pattern "%Y-%m-%d") with [Dir "Y"; Lit "-"; Dir "m"; Lit "-"; Dir "d"].
  change (String a (String b (String c (String e EmptyString))) +:+ ?r)
    with (String a (String b (String c (String e r)))).
  rewrite (re_match_year _ _ a b c e _ Hdig), Hval, re_match_dash.
  destruct (re_match_month m [Lit "-"; Dir "d"] (set_Y no_fields y)
              (String "-" (zfill 2 (pretty d))) Hm) as [others1 ->].
  rewrite re_match_dash.
  destruct (re_match_day d (set_m (set_Y no_fields y) m) Hd31) as [others2 ->].
  simpl. unfold make_date.
  replace ((1 <=? y) && (y <=? 9999) && (1 <=? m) && (m <=? 12) && (1 <=? d)
           && (d <=? days_in_month y m)) with true by lia.
  reflexivity.
Qed.

Section IsoFields.
Context {E : Engines}.

(** A date field that already holds a valid date in ISO form, as the prompt
    asks the model to write it, does not stay as it is: post-validation
    replaces it by its year followed by the literal text [-MM-DD]. *)
Theorem iso_date_field_loses_month_and_day (fields : gmap string value) key y m d :
  contains "date" (lower key) = true ->
  1000 <= y <= 9999 -> 1 <= m <= 12 -> 1 <= d <= days_in_month y m ->
  fields !! key
  = Some (VStr (strftime pad_year {| year := y; month := m; day := d |}
                 "%Y-%m-%d")) ->
  exists fields',
    post_process_and_validate (VDict fields) = VDict fields'
    /\ fields' !! key = Some (VStr (fmt_year pad_year y +:+ "-MM-DD")).
Proof.
  intros Hkey Hy Hm Hd Hfield.
  destruct (post_process_lookup fields) as (fields' & Hpost & Hlook).
  exists fields'. split; [exact Hpost|].
  rewrite Hlook, Hfield.
  set (iso := strftime pad_year _ "%Y-%m-%d").
  change (normalized key <$> Some (VStr iso))
    with (Some (normalized key (VStr iso))).
  f_equal. unfold normalized, reformatted.
  rewrite Hkey. unfold DATE_FORMATS. cbn [try_formats]. subst iso.
  now rewrite (iso_text_round_trip pad_year y m d Hy Hm Hd).
Qed.

End IsoFields.

Lemma iso_text_round_trip_witness :
  strptime "1990-03-15" "%Y-%m-%d" = Some {| year := 1990; month := 3; day := 15 |}.
Proof.
  apply (iso_text_round_trip true 1990 3 15).
  - lia.
  - lia.
  - vm_compute. split; discriminate.
Defined.

Lemma iso_date_field_witness :
  exists fields',
    @post_process_and_validate (demo_engines (reply_of 200 "OK" BODY_DONE))
      (VDict {[ "date_of_birth" := VStr "1990-03-15" ]}) = VDict fields'
    /\ fields' !! "date_of_birth" = Some (VStr "1990-MM-DD").
Proof.
  apply (@iso_date_field_loses_month_and_day
           (demo_engines (reply_of 200 "OK" BODY_DONE))
           {[ "date_of_birth" := VStr "1990-03-15" ]} "date_of_birth" 1990 3 15).
  - reflexivity.
  - lia.
  - lia.
  - vm_compute. split; discriminate.
  - reflexivity.
Defined.

(** C8 as stated fails when a page after the first does not render: the PDF
    of four pages whose third page raises gives its first two pages, not no
    image. *)
Lemma pdf_failing_at_a_later_page_gives_images :
  let E := lab_engines (reply_of 200 "OK" BODY_DONE) demo_loads render_but_zero in
  endswith ".pdf" (lower "scan.pdf") = true
  /\ fitz_open [Byte.x01; Byte.x02; Byte.x00; Byte.x03]
     = Returns [[Byte.x01]; [Byte.x02]; [Byte.x00]; [Byte.x03]]
  /\ render_page [Byte.x00] = Raises "cannot render page"
  /\ process_file_input [Byte.x01; Byte.x02; Byte.x00; Byte.x03] "scan.pdf"
     = [[Byte.x01]; [Byte.x02]]
  /\ process_file_input [Byte.x01; Byte.x02; Byte.x00; Byte.x03] "scan.pdf" <> [].
Proof.
  intros E. repeat split; try reflexivity. discriminate.
Qed.
